(** * sync_overlay: telemetry normalisation and SRT caption timing

    A shallow embedding of [src/sync_overlay.py].  The Python values the
    program manipulates are modelled as they are at run time:

    - [int] is [Z] (arbitrary precision);
    - [float] is an IEEE-754 binary64 value, a [spec_float] with precision 53
      and maximal exponent 1024, with NaN, the infinities and signed zeros;
    - [str] is [string], the UTF-8 bytes of the text; whitespace, digits
      and letter case are the ASCII ones, so the model is exact on text
      whose whitespace and digits are ASCII;
    - a JSON record ([dict]) is a [gmap string pyval];
    - exceptions are explicit: every function that can raise returns a
      [result].

    The first part models the builtins the program calls ([float], [round],
    [divmod], [datetime], string formatting); the second part is the
    program itself, function by function; the third part states and proves
    the properties. *)

From Stdlib Require Import ZArith String Ascii List Lia SpecFloat DecimalString.
From Stdlib Require Import Sorting.Sorted Sorting.Permutation.
From stdpp Require Import gmap strings list.

Open Scope string_scope.
Open Scope Z_scope.

(** ** Exceptions and the error monad *)

Inductive exn : Type :=
  | ValueError (msg : string)
  | TypeError
  | OverflowError
  | AttributeError
  | ZeroDivisionError.

Inductive result (A : Type) : Type :=
  | Ok (a : A)
  | Raise (e : exn).
Arguments Ok {A} a.
Arguments Raise {A} e.

#[global] Instance result_ret : MRet result := @Ok.

#[global] Instance result_bind : MBind result := fun A B k r =>
  match r with
  | Ok a => k a
  | Raise e => Raise e
  end.

Definition is_ok {A : Type} (r : result A) : bool :=
  match r with Ok _ => true | Raise _ => false end.

(** ** Strings *)

Module Str.

Definition code (c : ascii) : Z := Z.of_N (N_of_ascii c).

(** [str.isspace] on ASCII characters. *)
Definition is_space (c : ascii) : bool :=
  let n := code c in
  ((9 <=? n) && (n <=? 13)) || ((28 <=? n) && (n <=? 32)).

(** The whitespace [float] ignores around an ASCII numeral. *)
Definition is_c_space (c : ascii) : bool :=
  let n := code c in ((9 <=? n) && (n <=? 13)) || (n =? 32).

Definition is_digit (c : ascii) : bool :=
  let n := code c in (48 <=? n) && (n <=? 57).

Definition digit (c : ascii) : Z := code c - 48.

Definition lower (c : ascii) : ascii :=
  let n := code c in
  if (65 <=? n) && (n <=? 90) then ascii_of_N (Z.to_N (n + 32)) else c.

Fixpoint lstrip (space : ascii -> bool) (l : list ascii) : list ascii :=
  match l with
  | c :: l' => if space c then lstrip space l' else l
  | [] => []
  end.

Definition rstrip (space : ascii -> bool) (l : list ascii) : list ascii :=
  rev (lstrip space (rev l)).

(** [s.strip()] *)
Definition strip (s : string) : string :=
  string_of_list_ascii
    (rstrip is_space (lstrip is_space (list_ascii_of_string s))).

(** [s.endswith(suffix)] *)
Definition endswith (s suffix : string) : bool :=
  let l := list_ascii_of_string s in
  let k := list_ascii_of_string suffix in
  (length k <=? length l)%nat
  && bool_decide (skipn (length l - length k) l = k).

(** [s[:-1]] *)
Definition drop_last (s : string) : string :=
  string_of_list_ascii (removelast (list_ascii_of_string s)).

(** [sep.join(parts)] *)
Fixpoint join (sep : string) (parts : list string) : string :=
  match parts with
  | [] => ""
  | [p] => p
  | p :: rest => p +:+ sep +:+ join sep rest
  end.

(** [str(n)] for an [int]. *)
Definition of_Z (z : Z) : string := NilZero.string_of_int (Z.to_int z).

Fixpoint zeros (n : nat) : string :=
  match n with
  | O => ""
  | S n' => String "0" (zeros n')
  end.

(** [format(z, "0<width>")]: sign-aware zero padding to [width]
    characters, never truncating. *)
Definition zfill (width : nat) (z : Z) : string :=
  let digits := of_Z (Z.abs z) in
  if z <? 0
  then "-" +:+ zeros (width - 1 - String.length digits) +:+ digits
  else zeros (width - String.length digits) +:+ digits.

Definition newline : string := String (ascii_of_nat 10) "".

End Str.

(** ** Binary64 floating point *)

Module Float.

Definition prec : Z := 53.
Definition emax : Z := 1024.

Definition add : spec_float -> spec_float -> spec_float := SFadd prec emax.
Definition sub : spec_float -> spec_float -> spec_float := SFsub prec emax.
Definition mul : spec_float -> spec_float -> spec_float := SFmul prec emax.
Definition div : spec_float -> spec_float -> spec_float := SFdiv prec emax.
Definition ltb : spec_float -> spec_float -> bool := SFltb.
Definition leb : spec_float -> spec_float -> bool := SFleb.
Definition eqb : spec_float -> spec_float -> bool := SFeqb.

Definition is_nan (x : spec_float) : bool :=
  match x with S754_nan => true | _ => false end.

Definition is_zero (x : spec_float) : bool :=
  match x with S754_zero _ => true | _ => false end.

Definition sign (x : spec_float) : bool :=
  match x with
  | S754_zero s | S754_infinity s | S754_finite s _ _ => s
  | S754_nan => false
  end.

(** The integer [z] rounded to the nearest float, ties to even. *)
Definition of_Z_round (z : Z) : spec_float :=
  binary_normalize prec emax z 0 false.

(** [float(z)] for an [int]: [None] stands for the [OverflowError] that
    Python raises when the rounded value is not finite. *)
Definition of_Z (z : Z) : option spec_float :=
  match of_Z_round z with
  | S754_infinity _ => None
  | x => Some x
  end.

(** The rational [n / d] ([0 < d]) rounded to the nearest float, ties to
    even.  The quotient is computed with more than 1100 fractional bits
    and a sticky bit, which determines the rounding. *)
Definition of_ratio (n d : Z) : spec_float :=
  if d <=? 0 then S754_nan else
  let s := 1100 + Z.log2 d in
  let q := Z.shiftl (Z.abs n) s / d in
  let r := Z.shiftl (Z.abs n) s mod d in
  let m := 2 * q + (if r =? 0 then 0 else 1) in
  match n with
  | Z0 => S754_zero false
  | Zpos _ => binary_normalize prec emax m (- (s + 1)) false
  | Zneg _ => binary_normalize prec emax (- m) (- (s + 1)) true
  end.

(** The decimal [m * 10^e] rounded to the nearest float. *)
Definition of_decimal (m e : Z) : spec_float :=
  if 0 <=? e then of_Z_round (m * 10 ^ e) else of_ratio m (10 ^ (- e)).

Definition zero : spec_float := S754_zero false.
Definition one : spec_float := of_Z_round 1.
Definition infinity : spec_float := S754_infinity false.
Definition nan : spec_float := S754_nan.

(** The exact value of a finite float as a fraction [num / 2^k]. *)
Definition exact (s : bool) (m : positive) (e : Z) : Z * Z :=
  let v := if s then Zneg m else Zpos m in
  if 0 <=? e then (v * 2 ^ e, 0) else (v, - e).

(** [n / 2^k] rounded to the nearest integer, ties to even. *)
Definition round_half_even (n k : Z) : Z :=
  let d := 2 ^ k in
  let q := n / d in
  let r := n mod d in
  match 2 * r ?= d with
  | Lt => q
  | Gt => q + 1
  | Eq => if Z.even q then q else q + 1
  end.

(** C [fmod]: the result has the sign of [x] and is exact. *)
Definition fmod (x y : spec_float) : spec_float :=
  match x, y with
  | S754_nan, _ | _, S754_nan => S754_nan
  | S754_infinity _, _ => S754_nan
  | _, S754_zero _ => S754_nan
  | S754_zero _, _ => x
  | _, S754_infinity _ => x
  | S754_finite sx mx ex, S754_finite _ my ey =>
      let e := Z.min ex ey in
      let X := Zpos mx * 2 ^ (ex - e) in
      let Y := Zpos my * 2 ^ (ey - e) in
      let R := X mod Y in
      binary_normalize prec emax (if sx then - R else R) e sx
  end.

(** C [floor]. *)
Definition floor (x : spec_float) : spec_float :=
  match x with
  | S754_finite s m e =>
      if 0 <=? e then x
      else binary_normalize prec emax ((if s then Zneg m else Zpos m) / 2 ^ (- e)) 0 s
  | _ => x
  end.

(** C [copysign] applied to a zero magnitude. *)
Definition zero_with_sign_of (y : spec_float) : spec_float :=
  S754_zero (sign y).

(** [float.__divmod__], following CPython's [float_divmod]: the
    remainder takes the sign of the divisor and the quotient is snapped
    to the nearest integral value. *)
Definition divmod (vx wx : spec_float) : result (spec_float * spec_float) :=
  if is_zero wx then Raise ZeroDivisionError else
  let mod0 := fmod vx wx in
  let div0 := div (sub vx mod0) wx in
  let '(md, dv) :=
    if is_zero mod0 then (zero_with_sign_of wx, div0)
    else if negb (Bool.eqb (ltb wx zero) (ltb mod0 zero))
         then (add mod0 wx, sub div0 one)
         else (mod0, div0) in
  let floordiv :=
    if is_zero dv then zero_with_sign_of (div vx wx)
    else
      let fl := floor dv in
      if ltb (of_ratio 1 2) (sub dv fl) then add fl one else fl in
  Ok (floordiv, md).

(** [int(x)]: truncation towards zero. *)
Definition to_int (x : spec_float) : result Z :=
  match x with
  | S754_nan => Raise (ValueError "cannot convert float NaN to integer")
  | S754_infinity _ => Raise OverflowError
  | S754_zero _ => Ok 0
  | S754_finite s m e =>
      let '(n, k) := exact s m e in Ok (Z.quot n (2 ^ k))
  end.

(** [round(x)] with no digits argument: nearest integer, ties to even. *)
Definition round (x : spec_float) : result Z :=
  match x with
  | S754_nan => Raise (ValueError "cannot convert float NaN to integer")
  | S754_infinity _ => Raise OverflowError
  | S754_zero _ => Ok 0
  | S754_finite s m e =>
      let '(n, k) := exact s m e in Ok (round_half_even n k)
  end.

(** [format(x, ".<d>f")]: the exact value rounded to [d] decimals, ties
    to even, with the sign of [x] kept. *)
Definition format_fixed (d : nat) (x : spec_float) : string :=
  match x with
  | S754_nan => "nan"
  | S754_infinity s => if s then "-inf" else "inf"
  | S754_zero s =>
      (if s then "-" else "") +:+ "0" +:+
      (if (d =? 0)%nat then "" else "." +:+ Str.zeros d)
  | S754_finite s m e =>
      let '(n, k) := exact false m e in
      let scaled := round_half_even (n * 10 ^ Z.of_nat d) k in
      let ip := scaled / 10 ^ Z.of_nat d in
      let fp := scaled mod 10 ^ Z.of_nat d in
      (if s then "-" else "") +:+ Str.of_Z ip +:+
      (if (d =? 0)%nat then "" else "." +:+ Str.zfill d fp)
  end.

End Float.

(** ** The [float] constructor on strings *)

Module FloatParse.

(** [digit (["_"] digit)*] after a first digit has been read: the digits
    read and the rest of the input. *)
Fixpoint digit_tail (l : list ascii) : list Z * list ascii :=
  match l with
  | c :: l' =>
      if Str.is_digit c then
        let '(ds, r) := digit_tail l' in (Str.digit c :: ds, r)
      else if Ascii.eqb c "_" then
        match l' with
        | c' :: l'' =>
            if Str.is_digit c' then
              let '(ds, r) := digit_tail l'' in (Str.digit c' :: ds, r)
            else ([], l)
        | [] => ([], l)
        end
      else ([], l)
  | [] => ([], [])
  end.

(** [digitpart], possibly empty. *)
Definition digitpart (l : list ascii) : list Z * list ascii :=
  match l with
  | c :: l' =>
      if Str.is_digit c then
        let '(ds, r) := digit_tail l' in (Str.digit c :: ds, r)
      else ([], l)
  | [] => ([], [])
  end.

Definition number_of_digits (ds : list Z) : Z :=
  fold_left (fun acc d => 10 * acc + d) ds 0.

Definition take_sign (l : list ascii) : bool * list ascii :=
  match l with
  | c :: l' =>
      if Ascii.eqb c "-" then (true, l')
      else if Ascii.eqb c "+" then (false, l')
      else (false, l)
  | [] => (false, [])
  end.

(** [exponent ::= ("e" | "E") [sign] digitpart], or nothing. *)
Definition exponent (l : list ascii) : option Z :=
  match l with
  | [] => Some 0
  | c :: l' =>
      if Ascii.eqb (Str.lower c) "e" then
        let '(neg, l1) := take_sign l' in
        match digitpart l1 with
        | ((_ :: _) as ds, []) =>
            Some (if neg then - number_of_digits ds else number_of_digits ds)
        | _ => None
        end
      else None
  end.

(** [floatnumber ::= ([digitpart] "." digitpart | digitpart ["."]) [exponent]] *)
Definition floatnumber (neg : bool) (l : list ascii) : option spec_float :=
  let '(ip, l1) := digitpart l in
  let '(fp, l2) :=
    match l1 with
    | c :: l1' => if Ascii.eqb c "." then digitpart l1' else ([], l1)
    | [] => ([], [])
    end in
  match ip, fp with
  | [], [] => None
  | _, _ =>
      match exponent l2 with
      | None => None
      | Some e =>
          let m := number_of_digits (ip ++ fp) in
          if m =? 0 then Some (S754_zero neg)
          else Some (Float.of_decimal (if neg then - m else m)
                                      (e - Z.of_nat (length fp)))
      end
  end.

(** [float(s)] for a string: surrounding whitespace is ignored, the
    special values are matched without regard to case, and the decimal
    is rounded to the nearest float.  [None] stands for [ValueError]. *)
Definition of_string (s : string) : option spec_float :=
  let l := Str.rstrip Str.is_c_space
             (Str.lstrip Str.is_c_space (list_ascii_of_string s)) in
  let '(neg, body) := take_sign l in
  let word := string_of_list_ascii (map Str.lower body) in
  if String.eqb word "inf" || String.eqb word "infinity"
  then Some (S754_infinity neg)
  else if String.eqb word "nan" then Some S754_nan
  else floatnumber neg body.

End FloatParse.

(** ** [datetime] *)

Module Datetime.

(** A [datetime] value; [tzinfo] is the UTC offset in microseconds of an
    aware value and [None] for a naive one. *)
Record t : Type := mk {
  year : Z; month : Z; day : Z;
  hour : Z; minute : Z; second : Z; microsecond : Z;
  tzinfo : option Z
}.

Definition is_leap (y : Z) : bool :=
  (y mod 4 =? 0) && (negb (y mod 100 =? 0) || (y mod 400 =? 0)).

Definition days_in_month (y m : Z) : Z :=
  if (m =? 2) && is_leap y then 29
  else nth (Z.to_nat m) [0; 31; 28; 31; 30; 31; 30; 31; 31; 30; 31; 30; 31] 0.

Definition days_before_year (y : Z) : Z :=
  let y' := y - 1 in y' * 365 + y' / 4 - y' / 100 + y' / 400.

Definition days_before_month (y m : Z) : Z :=
  nth (Z.to_nat m) [0; 0; 31; 59; 90; 120; 151; 181; 212; 243; 273; 304; 334] 0
  + (if (2 <? m) && is_leap y then 1 else 0).

Definition toordinal (d : t) : Z :=
  days_before_year (year d) + days_before_month (year d) (month d) + day d.

(** Microseconds of the wall-clock reading since the start of day 0. *)
Definition wall (d : t) : Z :=
  ((toordinal d * 86400 + hour d * 3600 + minute d * 60 + second d) * 1000000)
  + microsecond d.

(** The range checks of the [datetime] constructor. *)
Definition valid (d : t) : bool :=
  (1 <=? year d) && (year d <=? 9999)
  && (1 <=? month d) && (month d <=? 12)
  && (1 <=? day d) && (day d <=? days_in_month (year d) (month d))
  && (0 <=? hour d) && (hour d <? 24)
  && (0 <=? minute d) && (minute d <? 60)
  && (0 <=? second d) && (second d <? 60)
  && (0 <=? microsecond d) && (microsecond d <? 1000000)
  && match tzinfo d with
     | None => true
     | Some off => (- 86400000000 <? off) && (off <? 86400000000)
     end.

Definition aware (d : t) : bool :=
  match tzinfo d with Some _ => true | None => false end.

(** [a - b] as a [timedelta], in microseconds. *)
Definition sub (a b : t) : result Z :=
  match tzinfo a, tzinfo b with
  | None, None => Ok (wall a - wall b)
  | Some oa, Some ob => Ok (wall a - wall b + ob - oa)
  | _, _ => Raise TypeError
  end.

(** [a < b] *)
Definition lt (a b : t) : result bool :=
  delta ← sub a b; Ok (delta <? 0).

(** [min(ds)]: the first of the smallest elements. *)
Fixpoint min_from (current : t) (rest : list t) : result t :=
  match rest with
  | [] => Ok current
  | item :: rest' =>
      smaller ← lt item current;
      min_from (if smaller : bool then item else current) rest'
  end.

Definition min (ds : list t) : result t :=
  match ds with
  | [] => Raise (ValueError "min() arg is an empty sequence")
  | d :: rest => min_from d rest
  end.

(** [timedelta.total_seconds()]: the true division of the microsecond
    count by [10**6]. *)
Definition total_seconds (delta : Z) : spec_float :=
  Float.of_ratio delta 1000000.

Definition format_offset (off : Z) : string :=
  let sign := if off <? 0 then "-" else "+" in
  let a := Z.abs off in
  let hh := a / 3600000000 in
  let mm := (a mod 3600000000) / 60000000 in
  let ss := (a mod 60000000) / 1000000 in
  let us := a mod 1000000 in
  sign +:+ Str.zfill 2 hh +:+ ":" +:+ Str.zfill 2 mm
  +:+ (if (ss =? 0) && (us =? 0) then ""
       else ":" +:+ Str.zfill 2 ss
            +:+ (if us =? 0 then "" else "." +:+ Str.zfill 6 us)).

(** [d.isoformat()] *)
Definition isoformat (d : t) : string :=
  Str.zfill 4 (year d) +:+ "-" +:+ Str.zfill 2 (month d) +:+ "-"
  +:+ Str.zfill 2 (day d) +:+ "T"
  +:+ Str.zfill 2 (hour d) +:+ ":" +:+ Str.zfill 2 (minute d) +:+ ":"
  +:+ Str.zfill 2 (second d)
  +:+ (if microsecond d =? 0 then "" else "." +:+ Str.zfill 6 (microsecond d))
  +:+ match tzinfo d with
      | None => ""
      | Some off => format_offset off
      end.

End Datetime.

(** ** Parsing [datetime] values

    [datetime.fromisoformat] and [datetime.strptime] belong to the Python
    library.  The program is embedded over arbitrary parsers of their type
    (section variables below); the two definitions here are the concrete
    parsers used to evaluate the program on examples.  [fromisoformat]
    follows the documented grammar
    [YYYY-MM-DD[*HH[:MM[:SS[.fff[fff]]]][+HH:MM[:SS[.ffffff]]]]];
    [strptime] covers the directives [%H], [%M], [%S], [%f] and literal
    characters, with the defaults 1900-01-01 for the date. *)

Module DatetimeParse.

(** Exactly [n] decimal digits. *)
Fixpoint digits (n : nat) (acc : Z) (l : list ascii) : option (Z * list ascii) :=
  match n with
  | O => Some (acc, l)
  | S n' =>
      match l with
      | c :: l' =>
          if Str.is_digit c then digits n' (10 * acc + Str.digit c) l' else None
      | [] => None
      end
  end.

Definition expect (c : ascii) (l : list ascii) : option (list ascii) :=
  match l with
  | c' :: l' => if Ascii.eqb c c' then Some l' else None
  | [] => None
  end.

(** [.fff] or [.ffffff], up to the end of the input. *)
Definition fraction (l : list ascii) : option Z :=
  match length l with
  | 3%nat => '(v, _) ← digits 3 0 l; Some (v * 1000)
  | 6%nat => '(v, _) ← digits 6 0 l; Some v
  | _ => None
  end.

(** [HH[:MM[:SS[.fff[fff]]]]], up to the end of the input. *)
Definition hh_mm_ss_ff (l : list ascii) : option (Z * Z * Z * Z * bool) :=
  '(hh, l1) ← digits 2 0 l;
  match l1 with
  | [] => Some (hh, 0, 0, 0, false)
  | _ =>
      l2 ← expect ":" l1;
      '(mm, l3) ← digits 2 0 l2;
      match l3 with
      | [] => Some (hh, mm, 0, 0, true)
      | _ =>
          l4 ← expect ":" l3;
          '(ss, l5) ← digits 2 0 l4;
          match l5 with
          | [] => Some (hh, mm, ss, 0, true)
          | _ =>
              l6 ← expect "." l5;
              us ← fraction l6;
              Some (hh, mm, ss, us, true)
          end
      end
  end.

(** The time text and, when present, the sign and text of the offset. *)
Fixpoint split_offset (l : list ascii) : list ascii * option (bool * list ascii) :=
  match l with
  | [] => ([], None)
  | c :: l' =>
      if Ascii.eqb c "+" then ([], Some (false, l'))
      else if Ascii.eqb c "-" then ([], Some (true, l'))
      else let '(t, o) := split_offset l' in (c :: t, o)
  end.

Definition offset (o : option (bool * list ascii)) : option (option Z) :=
  match o with
  | None => Some None
  | Some (neg, l) =>
      '(hh, mm, ss, us, has_minutes) ← hh_mm_ss_ff l;
      if has_minutes : bool then
        let v := ((hh * 3600 + mm * 60 + ss) * 1000000) + us in
        Some (Some (if neg : bool then - v else v))
      else None
  end.

Definition checked (d : Datetime.t) : option Datetime.t :=
  if Datetime.valid d then Some d else None.

Definition fromisoformat (s : string) : option Datetime.t :=
  let l := list_ascii_of_string s in
  '(y, l1) ← digits 4 0 l;
  l2 ← expect "-" l1;
  '(m, l3) ← digits 2 0 l2;
  l4 ← expect "-" l3;
  '(d, l5) ← digits 2 0 l4;
  match l5 with
  | [] => checked (Datetime.mk y m d 0 0 0 0 None)
  | _sep :: l6 =>
      let '(tstr, o) := split_offset l6 in
      '(hh, mm, ss, us, _) ← hh_mm_ss_ff tstr;
      tz ← offset o;
      checked (Datetime.mk y m d hh mm ss us tz)
  end.

Inductive item : Type :=
  | Lit (c : ascii)
  | Hour
  | Minute
  | Second
  | Fraction.

Fixpoint parse_format (l : list ascii) : option (list item) :=
  match l with
  | [] => Some []
  | c :: l' =>
      if Ascii.eqb c "%" then
        match l' with
        | d :: l'' =>
            rest ← parse_format l'';
            if Ascii.eqb d "H" then Some (Hour :: rest)
            else if Ascii.eqb d "M" then Some (Minute :: rest)
            else if Ascii.eqb d "S" then Some (Second :: rest)
            else if Ascii.eqb d "f" then Some (Fraction :: rest)
            else None
        | [] => None
        end
      else rest ← parse_format l'; Some (Lit c :: rest)
  end.

Record fields : Type := mk_fields { fH : Z; fM : Z; fS : Z; ff : Z }.

Definition orelse {A : Type} (a b : option A) : option A :=
  match a with Some _ => a | None => b end.

(** A field of two digits bounded by [bound], else of one digit; the
    continuation decides whether the rest of the format matches. *)
Definition one_or_two {A : Type} (bound : Z) (l : list ascii)
    (k : Z -> list ascii -> option A) : option A :=
  orelse
    ('(v, l') ← digits 2 0 l; if v <=? bound then k v l' else None)
    ('(v, l') ← digits 1 0 l; k v l').

(** One to six digits, the longest first, scaled to microseconds. *)
Definition up_to_six {A : Type} (l : list ascii)
    (k : Z -> list ascii -> option A) : option A :=
  foldr (fun n acc =>
           orelse ('(v, l') ← digits n 0 l; k (v * 10 ^ Z.of_nat (6 - n)) l') acc)
        None [6; 5; 4; 3; 2; 1]%nat.

Fixpoint match_items (items : list item) (l : list ascii) (acc : fields)
    : option fields :=
  match items with
  | [] => match l with [] => Some acc | _ => None end
  | Lit c :: items' => l' ← expect c l; match_items items' l' acc
  | Hour :: items' =>
      one_or_two 23 l (fun v l' =>
        match_items items' l' (mk_fields v (fM acc) (fS acc) (ff acc)))
  | Minute :: items' =>
      one_or_two 59 l (fun v l' =>
        match_items items' l' (mk_fields (fH acc) v (fS acc) (ff acc)))
  | Second :: items' =>
      one_or_two 61 l (fun v l' =>
        match_items items' l' (mk_fields (fH acc) (fM acc) v (ff acc)))
  | Fraction :: items' =>
      up_to_six l (fun v l' =>
        match_items items' l' (mk_fields (fH acc) (fM acc) (fS acc) v))
  end.

(** [datetime.strptime(data, format)] *)
Definition strptime (data format : string) : option Datetime.t :=
  items ← parse_format (list_ascii_of_string format);
  f ← match_items items (list_ascii_of_string data) (mk_fields 0 0 0 0);
  checked (Datetime.mk 1900 1 1 (fH f) (fM f) (fS f) (ff f) None).

End DatetimeParse.

(** ** Python values *)

#[warnings="-register-all"]
Inductive pyval : Type :=
  | VNone
  | VBool (b : bool)
  | VInt (z : Z)
  | VFloat (f : spec_float)
  | VStr (s : string)
  | VList (l : list pyval)
  | VDict (d : gmap string pyval).

(** [float(value)] *)
Definition py_float (value : pyval) : result spec_float :=
  match value with
  | VBool b => Ok (if b then Float.one else Float.zero)
  | VInt z =>
      match Float.of_Z z with
      | Some x => Ok x
      | None => Raise OverflowError
      end
  | VFloat f => Ok f
  | VStr s =>
      match FloatParse.of_string s with
      | Some x => Ok x
      | None => Raise (ValueError ("could not convert string to float: " +:+ s))
      end
  | VNone | VList _ | VDict _ => Raise TypeError
  end.

(** * The program *)

(** [class TelemetryEntry] *)
Record TelemetryEntry : Type := mkTelemetryEntry {
  offset_seconds : spec_float;
  display_timestamp : string;
  speed : option spec_float;
  latitude : option spec_float;
  longitude : option spec_float
}.

(** The values [parse_timestamp] returns: [Union[dt.datetime, float]]. *)
Inductive timestamp : Type :=
  | Numeric (x : spec_float)
  | Absolute (d : Datetime.t).

Definition is_datetime (ts : timestamp) : bool :=
  match ts with Absolute _ => true | Numeric _ => false end.

(** The three [ValueError]s of the program, named as the specification
    names them. *)
Definition MissingTimestampField : exn :=
  ValueError "Each telemetry entry must include a 'timestamp' field".

Definition UnsupportedTimestampFormat (value : string) : exn :=
  ValueError ("Unsupported timestamp format: " +:+ value).

Definition MixedTimestampFormats : exn :=
  ValueError "Mixing absolute datetime strings with raw numeric seconds is not supported".

(** [list.sort(key=...)] on float keys, which compares keys with [<] only
    and returns a permutation of the list.  When no key is NaN, [<] is a
    strict weak order on the keys, Python's sort returns the sorted stable
    arrangement, and that arrangement is unique ([stable_sort_unique]
    below): it is the list the insertion sort here computes.  With a NaN
    key Python's result depends on its merge strategy and need be neither
    sorted nor stable; on such lists the properties below use of this
    definition only that its result is a permutation. *)
Section Sort.
Context {A : Type} (key : A -> spec_float).

Fixpoint insert_by_key (x : A) (l : list A) : list A :=
  match l with
  | [] => [x]
  | y :: l' =>
      if Float.ltb (key y) (key x) then y :: insert_by_key x l' else x :: l
  end.

Fixpoint sort_by_key (l : list A) : list A :=
  match l with
  | [] => []
  | x :: l' => insert_by_key x (sort_by_key l')
  end.

(** [a] may stand before [b] in a list sorted by [key]. *)
Definition key_le (a b : A) : Prop := Float.leb (key a) (key b) = true.

(** [a] has a key equal ([==]) to [k]. *)
Definition same_key (k : spec_float) (a : A) : bool := Float.eqb (key a) k.

(** [output] keeps the elements of [input] that have equal keys in the
    order they have in [input]. *)
Definition stable (input output : list A) : Prop :=
  forall k, List.filter (same_key k) output = List.filter (same_key k) input.

End Sort.

(** [_coerce_optional_float] *)
Definition _coerce_optional_float (value : pyval) : result (option spec_float) :=
  match value with
  | VNone => Ok None
  | _ =>
      match py_float value with
      | Ok x => Ok (Some x)
      | Raise TypeError | Raise (ValueError _) => Ok None
      | Raise e => Raise e
      end
  end.

(** [data.get(key)] *)
Definition get (data : gmap string pyval) (key : string) : pyval :=
  default VNone (data !! key).

(** The call [TelemetryEntry(offset_seconds=..., display_timestamp=...,
    speed=_coerce_optional_float(data.get("speed")), ...)]. *)
Definition make_entry (offset : spec_float) (display : string)
    (data : gmap string pyval) : result TelemetryEntry :=
  sp ← _coerce_optional_float (get data "speed");
  la ← _coerce_optional_float (get data "latitude");
  lo ← _coerce_optional_float (get data "longitude");
  Ok (mkTelemetryEntry offset display sp la lo).

Section Program.

Variable fromisoformat : string -> option Datetime.t.
Variable strptime : string -> string -> option Datetime.t.

(** [parse_timestamp] *)
Definition parse_timestamp (value : pyval) : result timestamp :=
  match value with
  | VBool _ | VInt _ | VFloat _ => x ← py_float value; Ok (Numeric x)
  | VStr s =>
      let value := Str.strip s in
      match py_float (VStr value) with
      | Ok numeric => Ok (Numeric numeric)
      | Raise (ValueError _) =>
          let iso_candidate :=
            if Str.endswith value "Z"
            then Str.drop_last value +:+ "+00:00"
            else value in
          match fromisoformat iso_candidate with
          | Some d => Ok (Absolute d)
          | None =>
              match strptime value "%H:%M:%S.%f" with
              | Some d => Ok (Absolute d)
              | None =>
                  match strptime value "%H:%M:%S" with
                  | Some d => Ok (Absolute d)
                  | None => Raise (UnsupportedTimestampFormat value)
                  end
              end
          end
      | Raise e => Raise e
      end
  | VNone | VList _ | VDict _ => Raise AttributeError
  end.

(** The first loop of [normalize_entries]: the list [parsed]. *)
Fixpoint parse_entries (entries : list (gmap string pyval))
    : result (list (timestamp * gmap string pyval)) :=
  match entries with
  | [] => Ok []
  | entry :: rest =>
      match entry !! "timestamp" with
      | None => Raise MissingTimestampField
      | Some v =>
          ts ← parse_timestamp v;
          parsed ← parse_entries rest;
          Ok ((ts, entry) :: parsed)
      end
  end.

(** [(ts if isinstance(ts, dt.datetime) else None, data)] *)
Definition datetime_or_none (p : timestamp * gmap string pyval)
    : option Datetime.t * gmap string pyval :=
  match fst p with
  | Absolute d => (Some d, snd p)
  | Numeric _ => (None, snd p)
  end.

(** The body of the loop of the absolute branch. *)
Definition absolute_entry (start_time : Datetime.t)
    (p : Datetime.t * gmap string pyval) : result TelemetryEntry :=
  delta ← Datetime.sub (fst p) start_time;
  make_entry (Datetime.total_seconds delta) (Datetime.isoformat (fst p)) (snd p).

(** The body of the loop of the numeric branch. *)
Definition numeric_entry (p : timestamp * gmap string pyval)
    : result TelemetryEntry :=
  match fst p with
  | Numeric numeric =>
      make_entry numeric (Float.format_fixed 3 numeric +:+ "s") (snd p)
  | Absolute _ => Raise TypeError
  end.

(** [any(ts is None for ts, _ in datetime_entries)] decided while the
    datetimes are collected: [None] when some [ts] is [None]. *)
Fixpoint all_datetimes (l : list (option Datetime.t * gmap string pyval))
    : option (list (Datetime.t * gmap string pyval)) :=
  match l with
  | [] => Some []
  | (Some d, data) :: l' =>
      match all_datetimes l' with
      | Some r => Some ((d, data) :: r)
      | None => None
      end
  | (None, _) :: _ => None
  end.

(** The list [offsets] of [normalize_entries] before it is sorted. *)
Definition build_offsets (parsed : list (timestamp * gmap string pyval))
    : result (list TelemetryEntry) :=
  let has_datetimes := existsb (fun p => is_datetime (fst p)) parsed in
  if has_datetimes then
    let datetime_entries := map datetime_or_none parsed in
    match all_datetimes datetime_entries with
    | None => Raise MixedTimestampFormats
    | Some entries =>
        start_time ← Datetime.min (map fst entries);
        mapM (absolute_entry start_time) entries
    end
  else mapM numeric_entry parsed.

(** [normalize_entries] *)
Definition normalize_entries (entries : list (gmap string pyval))
    : result (list TelemetryEntry) :=
  parsed ← parse_entries entries;
  offsets ← build_offsets parsed;
  Ok (sort_by_key offset_seconds offsets).

End Program.

(** ** Subtitle rendering *)

(** A Python number: [srt_timestamp] receives floats from [build_srt], and
    [max(0, seconds)] yields the [int] 0 when [seconds] is not above 0. *)
Inductive number : Type :=
  | NInt (z : Z)
  | NFloat (f : spec_float).

Module Number.

(** [max(0, seconds)]: the first argument unless the second is greater. *)
Definition max0 (seconds : number) : number :=
  match seconds with
  | NInt z => if 0 <? z then seconds else NInt 0
  | NFloat f => if Float.ltb Float.zero f then seconds else NInt 0
  end.

(** [divmod(a, k)] for a positive [int] literal [k]. *)
Definition divmod (a : number) (k : Z) : result (number * number) :=
  match a with
  | NInt z => Ok (NInt (z / k), NInt (z mod k))
  | NFloat f =>
      '(q, r) ← Float.divmod f (Float.of_Z_round k);
      Ok (NFloat q, NFloat r)
  end.

(** [int(a)] *)
Definition to_int (a : number) : result Z :=
  match a with
  | NInt z => Ok z
  | NFloat f => Float.to_int f
  end.

(** [a * k] for an [int] literal [k]. *)
Definition mul (a : number) (k : Z) : number :=
  match a with
  | NInt z => NInt (z * k)
  | NFloat f => NFloat (Float.mul f (Float.of_Z_round k))
  end.

(** [round(a)] *)
Definition round (a : number) : result Z :=
  match a with
  | NInt z => Ok z
  | NFloat f => Float.round f
  end.

End Number.

(** [srt_timestamp] *)
Definition srt_timestamp (seconds : number) : result string :=
  let seconds := Number.max0 seconds in
  '(hours, remainder) ← Number.divmod seconds 3600;
  '(minutes, remainder) ← Number.divmod remainder 60;
  '(secs, millis) ← Number.divmod remainder 1;
  h ← Number.to_int hours;
  m ← Number.to_int minutes;
  s ← Number.to_int secs;
  ms ← Number.round (Number.mul millis 1000);
  Ok (Str.zfill 2 h +:+ ":" +:+ Str.zfill 2 m +:+ ":" +:+ Str.zfill 2 s
      +:+ "," +:+ Str.zfill 3 ms).

(** [enumerate(l, start)] *)
Fixpoint enumerate {A : Type} (start : nat) (l : list A) : list (nat * A) :=
  match l with
  | [] => []
  | x :: l' => (start, x) :: enumerate (S start) l'
  end.

Section Render.

(** [str(x)] for a float, a function of the Python library. *)
Variable float_repr : spec_float -> string.

(** The end of the caption of [entry], the [idx]-th entry counted from
    1: [entries[idx].offset_seconds if idx < len(entries) else
    entry.offset_seconds + 1.0]. *)
Definition end_time (entries : list TelemetryEntry) (idx : nat)
    (entry : TelemetryEntry) : spec_float :=
  if (idx <? length entries)%nat
  then offset_seconds (nth idx entries entry)
  else Float.add (offset_seconds entry) Float.one.

Definition em_dash : string := "—".

Definition caption_lines (entry : TelemetryEntry) (speed_unit : string)
    : list string :=
  ["Time: " +:+ display_timestamp entry]
  ++ match speed entry with
     | Some v => ["Speed: " +:+ Float.format_fixed 1 v +:+ " " +:+ speed_unit]
     | None => []
     end
  ++ match latitude entry, longitude entry with
     | None, None => []
     | la, lo =>
         ["Lat/Lon: " +:+ from_option float_repr em_dash la +:+ ", "
          +:+ from_option float_repr em_dash lo]
     end.

(** The display window of a caption: where it starts and where it ends. *)
Definition caption_window (entries : list TelemetryEntry) (idx : nat)
    (entry : TelemetryEntry) : spec_float * spec_float :=
  (offset_seconds entry, end_time entries idx entry).

(** The four lines one iteration of the loop of [build_srt] appends. *)
Definition caption_block (entries : list TelemetryEntry) (speed_unit : string)
    (p : nat * TelemetryEntry) : result (list string) :=
  let '(idx, entry) := p in
  let '(start, finish) := caption_window entries idx entry in
  t1 ← srt_timestamp (NFloat start);
  t2 ← srt_timestamp (NFloat finish);
  Ok [Str.of_Z (Z.of_nat idx);
      t1 +:+ " --> " +:+ t2;
      Str.join Str.newline (caption_lines entry speed_unit);
      ""].

(** [build_srt] *)
Definition build_srt (entries : list TelemetryEntry) (speed_unit : string)
    : result string :=
  blocks ← mapM (caption_block entries speed_unit) (enumerate 1 entries);
  Ok (Str.strip (Str.join Str.newline (concat blocks)) +:+ Str.newline).

End Render.


(** * Vocabulary of the properties *)

(** The specification's UTC designator normalization: [c] is [v] with a
    trailing literal [Z] rewritten to [+00:00], and [v] itself when [v]
    does not end in [Z]. *)
Definition utc_designator_rewritten (v c : string) : Prop :=
  (exists t, v = t +:+ "Z" /\ c = t +:+ "+00:00")
  \/ ((forall t, v <> t +:+ "Z") /\ c = v).

(** The point on the time line a [datetime] denotes, in microseconds: the
    UTC reading of an aware value, the wall-clock reading of a naive one. *)
Definition instant (d : Datetime.t) : Z :=
  Datetime.wall d - default 0 (Datetime.tzinfo d).

(** All values are aware, or all are naive. *)
Definition uniform_awareness (ds : list Datetime.t) : Prop :=
  Forall (fun d => Datetime.aware d = true) ds
  \/ Forall (fun d => Datetime.aware d = false) ds.

(** A record that holds a timestamp and nothing else. *)
Definition timestamp_record (v : pyval) : gmap string pyval :=
  {[ "timestamp" := v ]}.

(** The program over the concrete parsers. *)
Definition parse_timestamp_py : pyval -> result timestamp :=
  parse_timestamp DatetimeParse.fromisoformat DatetimeParse.strptime.

Definition normalize_entries_py
  : list (gmap string pyval) -> result (list TelemetryEntry) :=
  normalize_entries DatetimeParse.fromisoformat DatetimeParse.strptime.

(** The auxiliary fields of a record convert without an exception. *)
Definition auxiliary_fields_convert (data : gmap string pyval) : Prop :=
  exists sp la lo,
    _coerce_optional_float (get data "speed") = Ok sp
    /\ _coerce_optional_float (get data "latitude") = Ok la
    /\ _coerce_optional_float (get data "longitude") = Ok lo.

(** The end of the caption of [entry], the entry at position [i] counted
    from 0, as the specification words it: the offset of the next entry
    when there is one, else the offset of [entry] plus 1.0. *)
Definition caption_end (entries : list TelemetryEntry) (i : nat)
    (entry : TelemetryEntry) : spec_float :=
  match entries !! S i with
  | Some next => offset_seconds next
  | None => Float.add (offset_seconds entry) Float.one
  end.

(** [display_timestamp] of the numeric branch: [f"{numeric:.3f}s"]. *)
Definition seconds_label (x : spec_float) : string :=
  Float.format_fixed 3 x +:+ "s".

(** [entry] carries the auxiliary fields of [record], each coerced on its
    own. *)
Definition carries_fields_of (record : gmap string pyval)
    (entry : TelemetryEntry) : Prop :=
  _coerce_optional_float (get record "speed") = Ok (speed entry)
  /\ _coerce_optional_float (get record "latitude") = Ok (latitude entry)
  /\ _coerce_optional_float (get record "longitude") = Ok (longitude entry).

(** The errors the specification lists for normalization, and the three
    Python errors that can escape it. *)
Definition normalization_error (e : exn) : Prop :=
  e = MissingTimestampField
  \/ (exists text, e = UnsupportedTimestampFormat text)
  \/ e = MixedTimestampFormats
  \/ e = TypeError \/ e = OverflowError \/ e = AttributeError.

(** [s] consists of whitespace only. *)
Definition all_space (s : string) : Prop :=
  Forall (fun c => Str.is_space c = true) (list_ascii_of_string s).

(** * Locating and loading the inputs *)

(** A folder is given by the names of its entries.  [sorted] on the paths
    of one folder orders them as their names, by code point, which on
    UTF-8 text is the order of the bytes. *)
Fixpoint insert_name (x : string) (l : list string) : list string :=
  match l with
  | [] => [x]
  | y :: l' => if String.ltb y x then y :: insert_name x l' else x :: l
  end.

(** [sorted(names)] *)
Fixpoint sorted_names (l : list string) : list string :=
  match l with
  | [] => []
  | x :: l' => insert_name x (sorted_names l')
  end.

(** [folder.glob("*" + ext)]: the entries whose name ends with [ext]
    (names are matched with regard to case, as on a POSIX system, and a
    leading dot is not special). *)
Definition glob_suffix (folder : list string) (ext : string) : list string :=
  List.filter (fun name => Str.endswith name ext) folder.

(** The loop of [find_video_file] over the extensions. *)
Fixpoint find_by_extensions (folder : list string) (exts : list string)
    : option string :=
  match exts with
  | [] => None
  | ext :: rest =>
      match sorted_names (glob_suffix folder ext) with
      | first :: _ => Some first
      | [] => find_by_extensions folder rest
      end
  end.

(** [find_video_file]; [None] stands for [FileNotFoundError]. *)
Definition find_video_file (folder : list string) : option string :=
  find_by_extensions folder [".mp4"; ".ts"].

(** [find_metadata_file]; [None] stands for [FileNotFoundError]. *)
Definition find_metadata_file (folder : list string) : option string :=
  match sorted_names (glob_suffix folder ".json") with
  | first :: _ => Some first
  | [] => None
  end.

Definition MalformedMetadataPayload : exn :=
  ValueError "Metadata JSON must be a list or contain a top-level 'data' array".

(** The loop of [load_metadata] over the keys: the value of the first key
    that is present and holds a list. *)
Fixpoint first_list (payload : gmap string pyval) (keys : list string)
    : option (list pyval) :=
  match keys with
  | [] => None
  | key :: rest =>
      match payload !! key with
      | Some (VList l) => Some l
      | _ => first_list payload rest
      end
  end.

Section Load.

(** [json.loads], a function of the Python library. *)
Variable json_loads : string -> result pyval.

(** [load_metadata] on the text of the metadata file. *)
Definition load_metadata (text : string) : result (list pyval) :=
  payload ← json_loads text;
  match payload with
  | VList l => Ok l
  | VDict d =>
      match first_list d ["data"; "entries"; "points"] with
      | Some l => Ok l
      | None => Raise MalformedMetadataPayload
      end
  | _ => Raise MalformedMetadataPayload
  end.

End Load.

(** The value under a key is not a list: the key is absent or holds
    something else. *)
Definition not_a_list (o : option pyval) : Prop :=
  forall l, o <> Some (VList l).

(** [name] is the least, in the order of [sorted], of the entries of
    [folder] that end with [ext]. *)
Definition least_with_suffix (folder : list string) (ext name : string) : Prop :=
  In name folder
  /\ Str.endswith name ext = true
  /\ forall other, In other folder -> Str.endswith other ext = true ->
                   String.leb name other = true.

(** No entry of [folder] ends with [ext]. *)
Definition none_with_suffix (folder : list string) (ext : string) : Prop :=
  forall name, In name folder -> Str.endswith name ext = false.

(** * Properties *)

(** ** The order on floats *)

Lemma SFcompare_antisym (x y : spec_float) :
  SFcompare y x = option_map CompOpp (SFcompare x y).
Proof.
  destruct x as [sx | sx | | sx mx ex], y as [sy | sy | | sy my ey];
    simpl; try reflexivity;
    try (destruct sx; reflexivity); try (destruct sy; reflexivity);
    try (destruct sx, sy; reflexivity).
  destruct sx, sy; simpl; try reflexivity;
    rewrite (Z.compare_antisym ey ex);
    destruct (ey ?= ex); simpl; try reflexivity;
    change (Pos.compare_cont Eq my mx) with (Pos.compare my mx);
    change (Pos.compare_cont Eq mx my) with (Pos.compare mx my);
    rewrite (Pos.compare_antisym mx my);
    try rewrite CompOpp_involutive; reflexivity.
Qed.

Lemma SFcompare_defined (x y : spec_float) :
  Float.is_nan x = false -> Float.is_nan y = false ->
  exists c, SFcompare x y = Some c.
Proof.
  destruct x, y; simpl; intros; try discriminate; eauto.
Qed.

Lemma ltb_false_leb (x y : spec_float) :
  Float.is_nan x = false -> Float.is_nan y = false ->
  Float.ltb y x = false -> Float.leb x y = true.
Proof.
  intros Hx Hy. unfold Float.ltb, Float.leb, SFltb, SFleb.
  rewrite (SFcompare_antisym y x).
  destruct (SFcompare_defined y x Hy Hx) as [c ->]. simpl.
  destruct c; simpl; congruence.
Qed.

Lemma ltb_leb (x y : spec_float) :
  Float.ltb x y = true -> Float.leb x y = true.
Proof.
  unfold Float.ltb, Float.leb, SFltb, SFleb.
  destruct (SFcompare x y) as [[]|]; congruence.
Qed.

Lemma eqb_cases (x k : spec_float) :
  Float.eqb x k = true ->
  x = k \/ (Float.is_zero x = true /\ Float.is_zero k = true).
Proof.
  unfold Float.eqb, SFeqb.
  destruct x as [sx | sx | | sx mx ex], k as [sk | sk | | sk mk ek];
    simpl; try discriminate; auto;
    try (destruct sx; discriminate); try (destruct sk; discriminate).
  - destruct sx, sk; try discriminate; auto.
  - destruct sx, sk; try discriminate;
      destruct (ex ?= ek) eqn:He; try discriminate;
      apply Z.compare_eq in He; subst ek;
      destruct (Pos.compare_cont Eq mx mk) eqn:Hm; try discriminate;
      apply Pos.compare_eq in Hm; subst mk; auto.
Qed.

Lemma eqb_compare_r (x k y : spec_float) :
  Float.eqb x k = true -> SFcompare y x = SFcompare y k.
Proof.
  intros H. destruct (eqb_cases x k H) as [-> | [Hx Hk]]; [reflexivity |].
  destruct x, k; try discriminate. destruct y; reflexivity.
Qed.

Lemma ltb_eqb_false (x k y : spec_float) :
  Float.ltb y x = true -> Float.eqb x k = true -> Float.eqb y k = false.
Proof.
  intros Hlt Heq. unfold Float.ltb, Float.eqb, SFltb, SFeqb in *.
  rewrite <- (eqb_compare_r x k y Heq).
  destruct (SFcompare y x) as [[]|]; congruence.
Qed.

(** ** The sort *)

Section SortFacts.
Context {A : Type} (key : A -> spec_float).

Lemma insert_by_key_perm (x : A) (l : list A) :
  Permutation (x :: l) (insert_by_key key x l).
Proof.
  induction l as [| y l IH]; simpl; [reflexivity |].
  destruct (Float.ltb (key y) (key x)); [| reflexivity].
  rewrite perm_swap. apply perm_skip, IH.
Qed.

Lemma sort_by_key_perm (l : list A) : Permutation l (sort_by_key key l).
Proof.
  induction l as [| x l IH]; simpl; [reflexivity |].
  rewrite <- insert_by_key_perm. apply perm_skip, IH.
Qed.

Lemma insert_by_key_hdrel (y x : A) (l : list A) :
  key_le key y x -> HdRel (key_le key) y l ->
  HdRel (key_le key) y (insert_by_key key x l).
Proof.
  intros Hyx Hhd. destruct l as [| z l]; simpl; [constructor; exact Hyx |].
  destruct (Float.ltb (key z) (key x)); constructor; [| exact Hyx].
  inversion Hhd; assumption.
Qed.

Lemma insert_by_key_sorted (x : A) (l : list A) :
  Float.is_nan (key x) = false ->
  Forall (fun a => Float.is_nan (key a) = false) l ->
  Sorted (key_le key) l -> Sorted (key_le key) (insert_by_key key x l).
Proof.
  intros Hx Hl Hs. induction Hs as [| y l Hs IH Hhd]; simpl.
  - repeat constructor.
  - inversion Hl as [| ? ? Hy Hl']; subst.
    destruct (Float.ltb (key y) (key x)) eqn:Hlt.
    + constructor; [apply IH, Hl' |].
      apply insert_by_key_hdrel; [apply ltb_leb, Hlt | exact Hhd].
    + constructor; [constructor; assumption |].
      constructor. apply ltb_false_leb; assumption.
Qed.

Lemma sort_by_key_sorted (l : list A) :
  Forall (fun a => Float.is_nan (key a) = false) l ->
  Sorted (key_le key) (sort_by_key key l).
Proof.
  induction 1 as [| x l Hx Hl IH]; simpl; [constructor |].
  apply insert_by_key_sorted; [exact Hx | | exact IH].
  eapply Permutation_Forall; [apply sort_by_key_perm | exact Hl].
Qed.

Lemma insert_by_key_filter (k : spec_float) (x : A) (l : list A) :
  List.filter (same_key key k) (insert_by_key key x l)
  = List.filter (same_key key k) (x :: l).
Proof.
  induction l as [| y l IH]; [reflexivity |].
  cbn [insert_by_key]. destruct (Float.ltb (key y) (key x)) eqn:Hlt;
    [| reflexivity].
  cbn [List.filter] in *. rewrite IH.
  destruct (same_key key k x) eqn:Hx; [| reflexivity].
  unfold same_key in *. rewrite (ltb_eqb_false _ _ _ Hlt Hx). reflexivity.
Qed.

Lemma sort_by_key_filter (k : spec_float) (l : list A) :
  List.filter (same_key key k) (sort_by_key key l) = List.filter (same_key key k) l.
Proof.
  induction l as [| x l IH]; [reflexivity |].
  cbn [sort_by_key]. rewrite insert_by_key_filter.
  cbn [List.filter]. rewrite IH. reflexivity.
Qed.

End SortFacts.

(** ** The sorted stable arrangement is unique *)

Lemma leb_trans (x y z : spec_float) :
  Float.leb x y = true -> Float.leb y z = true -> Float.leb x z = true.
Proof.
  unfold Float.leb, SFleb, SFcompare.
  destruct x as [sx | sx | | sx mx ex], y as [sy | sy | | sy my ey],
    z as [sz | sz | | sz mz ez];
    try destruct sx; try destruct sy; try destruct sz;
    try (intros; reflexivity); try (intros; discriminate);
    change (Pos.compare_cont Eq) with Pos.compare;
    destruct (Z.compare_spec ex ey); try (intros; discriminate);
    destruct (Z.compare_spec ey ez); try (intros; discriminate);
    destruct (Z.compare_spec ex ez); try (intros; reflexivity); try lia;
    subst;
    destruct (Pos.compare_spec mx my); try (intros; discriminate);
    destruct (Pos.compare_spec my mz); try (intros; discriminate);
    destruct (Pos.compare_spec mx mz); try (intros; reflexivity); lia.
Qed.

Lemma leb_antisym_eqb (x y : spec_float) :
  Float.leb x y = true -> Float.leb y x = true -> Float.eqb x y = true.
Proof.
  unfold Float.leb, Float.eqb, SFleb, SFeqb.
  rewrite (SFcompare_antisym x y).
  destruct (SFcompare x y) as [[] |]; simpl; congruence.
Qed.

Lemma eqb_refl (x : spec_float) :
  Float.is_nan x = false -> Float.eqb x x = true.
Proof.
  unfold Float.eqb, SFeqb, SFcompare.
  destruct x as [s | s | | s m e]; try destruct s; try reflexivity;
    try discriminate; intros _; rewrite Z.compare_refl;
    change (Pos.compare_cont Eq m m) with (Pos.compare m m);
    now rewrite Pos.compare_refl.
Qed.

Lemma eqb_sym (x y : spec_float) : Float.eqb x y = Float.eqb y x.
Proof.
  unfold Float.eqb, SFeqb. rewrite (SFcompare_antisym y x).
  destruct (SFcompare y x) as [[] |]; reflexivity.
Qed.

Section Unique.
Context {A : Type} (key : A -> spec_float).

Lemma key_le_trans (a b c : A) :
  key_le key a b -> key_le key b c -> key_le key a c.
Proof. apply leb_trans. Qed.

Lemma sorted_head_least (x : A) (l : list A) :
  Sorted (key_le key) (x :: l) -> forall y, In y l -> key_le key x y.
Proof.
  intros H. apply Sorted_StronglySorted in H; [| exact key_le_trans].
  inversion H as [| ? ? _ Hall]; subst. intros y Hy.
  rewrite List.Forall_forall in Hall. now apply Hall.
Qed.

Lemma filter_same_key_In (x : A) (l : list A) :
  Float.is_nan (key x) = false -> In x l ->
  In x (List.filter (same_key key (key x)) l).
Proof.
  intros Hx Hin. apply filter_In. split; [exact Hin |].
  unfold same_key. now apply eqb_refl.
Qed.

(** Two sorted lists without NaN keys that list the elements of every
    key in the same order are equal. *)
Lemma sorted_stable_unique (l1 l2 : list A) :
  Forall (fun a => Float.is_nan (key a) = false) l1 ->
  Forall (fun a => Float.is_nan (key a) = false) l2 ->
  Sorted (key_le key) l1 -> Sorted (key_le key) l2 ->
  (forall k, List.filter (same_key key k) l1 = List.filter (same_key key k) l2) ->
  l1 = l2.
Proof.
  revert l2. induction l1 as [| x l1 IH]; intros l2 Hn1 Hn2 Hs1 Hs2 Hf.
  - destruct l2 as [| y l2]; [reflexivity |].
    inversion Hn2 as [| ? ? Hy _]; subst.
    pose proof (filter_same_key_In y (y :: l2) Hy (or_introl eq_refl)) as Hin.
    rewrite <- Hf in Hin. destruct Hin.
  - destruct l2 as [| y l2].
    + inversion Hn1 as [| ? ? Hx _]; subst.
      pose proof (filter_same_key_In x (x :: l1) Hx (or_introl eq_refl)) as Hin.
      rewrite Hf in Hin. destruct Hin.
    + inversion Hn1 as [| ? ? Hx Hn1']; subst.
      inversion Hn2 as [| ? ? Hy Hn2']; subst.
      assert (Hxy : key_le key x y).
      { pose proof (filter_same_key_In y (y :: l2) Hy (or_introl eq_refl)) as Hin.
        rewrite <- Hf in Hin. apply filter_In in Hin as [[<- | Hin] _].
        - unfold key_le. apply ltb_false_leb; try assumption.
          unfold Float.ltb, SFltb.
          pose proof (eqb_refl _ Hx) as E. unfold Float.eqb, SFeqb in E.
          destruct (SFcompare (key x) (key x)) as [[] |]; congruence.
        - now apply (sorted_head_least x l1). }
      assert (Hyx : key_le key y x).
      { pose proof (filter_same_key_In x (x :: l1) Hx (or_introl eq_refl)) as Hin.
        rewrite Hf in Hin. apply filter_In in Hin as [[<- | Hin] _].
        - exact Hxy.
        - now apply (sorted_head_least y l2). }
      assert (E : x = y).
      { pose proof (Hf (key x)) as Hk. cbn [List.filter] in Hk.
        assert (E1 : same_key key (key x) x = true) by now apply eqb_refl.
        assert (E2 : same_key key (key x) y = true)
          by now apply leb_antisym_eqb.
        rewrite E1, E2 in Hk. now injection Hk. }
      subst y. f_equal. apply IH; try assumption.
      * now inversion Hs1.
      * now inversion Hs2.
      * intros k. specialize (Hf k). cbn [List.filter] in Hf.
        destruct (same_key key k x); [now injection Hf | exact Hf].
Qed.

(** Any sorted stable arrangement of a list without NaN keys is the list
    [sort_by_key] returns. *)
Lemma stable_sort_unique (l out : list A) :
  Forall (fun a => Float.is_nan (key a) = false) l ->
  Permutation l out ->
  Sorted (key_le key) out ->
  stable key l out ->
  out = sort_by_key key l.
Proof.
  intros Hn Hp Hs Hst. apply sorted_stable_unique.
  - eapply Permutation_Forall; [exact Hp | exact Hn].
  - eapply Permutation_Forall; [apply sort_by_key_perm | exact Hn].
  - exact Hs.
  - now apply sort_by_key_sorted.
  - intros k. rewrite (Hst k). symmetry. apply sort_by_key_filter.
Qed.

End Unique.

(** ** Strings *)

Lemma list_ascii_of_string_app (a b : string) :
  list_ascii_of_string (a +:+ b)
  = (list_ascii_of_string a ++ list_ascii_of_string b)%list.
Proof. induction a as [| c a IH]; simpl; [reflexivity | now rewrite IH]. Qed.

Lemma string_of_list_ascii_app (l k : list ascii) :
  string_of_list_ascii (l ++ k)%list
  = string_of_list_ascii l +:+ string_of_list_ascii k.
Proof. induction l as [| c l IH]; simpl; [reflexivity | now rewrite IH]. Qed.

Lemma endswith_true (v suffix : string) :
  Str.endswith v suffix = true ->
  exists t, v = t +:+ suffix /\
            list_ascii_of_string v
            = (list_ascii_of_string t ++ list_ascii_of_string suffix)%list.
Proof.
  unfold Str.endswith. intros H.
  apply andb_prop in H as [_ H]. apply bool_decide_eq_true in H.
  set (l := list_ascii_of_string v) in *.
  set (k := list_ascii_of_string suffix) in *.
  exists (string_of_list_ascii (firstn (length l - length k) l)).
  assert (Hl : l = (firstn (length l - length k) l ++ k)%list).
  { pose proof (firstn_skipn (length l - length k) l) as E.
    rewrite H in E. symmetry. exact E. }
  split.
  - rewrite <- (string_of_list_ascii_of_string v),
      <- (string_of_list_ascii_of_string suffix).
    fold l k. rewrite <- string_of_list_ascii_app. now rewrite <- Hl.
  - rewrite list_ascii_of_string_of_list_ascii. exact Hl.
Qed.

Lemma endswith_app (t suffix : string) :
  Str.endswith (t +:+ suffix) suffix = true.
Proof.
  unfold Str.endswith. rewrite list_ascii_of_string_app.
  set (l := list_ascii_of_string t). set (k := list_ascii_of_string suffix).
  apply andb_true_intro. split.
  - apply Nat.leb_le. rewrite length_app. lia.
  - apply bool_decide_eq_true.
    replace (length (l ++ k)%list - length k)%nat with (length l)
      by (rewrite length_app; lia).
    now rewrite skipn_app, skipn_all, Nat.sub_diag.
Qed.

Lemma drop_last_app (t : string) (c : ascii) :
  Str.drop_last (t +:+ String c "") = t.
Proof.
  unfold Str.drop_last. rewrite list_ascii_of_string_app. simpl.
  rewrite removelast_last. apply string_of_list_ascii_of_string.
Qed.

Lemma append_inj_last (t t' : string) (c : ascii) :
  t +:+ String c "" = t' +:+ String c "" -> t = t'.
Proof.
  intros H. rewrite <- (drop_last_app t c), <- (drop_last_app t' c).
  now rewrite H.
Qed.

(** ** parse_timestamp *)

Lemma utc_designator_rewritten_iso_candidate (v : string) :
  utc_designator_rewritten v
    (if Str.endswith v "Z" then Str.drop_last v +:+ "+00:00" else v).
Proof.
  destruct (Str.endswith v "Z") eqn:E.
  - left. destruct (endswith_true _ _ E) as [t [-> _]].
    exists t. now rewrite drop_last_app.
  - right. split; [| reflexivity].
    intros t ->. now rewrite endswith_app in E.
Qed.

Lemma utc_designator_rewritten_fun (v c c' : string) :
  utc_designator_rewritten v c -> utc_designator_rewritten v c' -> c = c'.
Proof.
  intros [[t [-> ->]] | [Hn ->]] [[t' [Ht' ->]] | [Hn' ->]].
  - now rewrite (append_inj_last _ _ _ Ht').
  - now destruct (Hn' t).
  - now destruct (Hn t').
  - reflexivity.
Qed.

Lemma parse_timestamp_str fromisoformat strptime (s : string) :
  parse_timestamp fromisoformat strptime (VStr s)
  = let v := Str.strip s in
    match FloatParse.of_string v with
    | Some x => Ok (Numeric x)
    | None =>
        match fromisoformat (if Str.endswith v "Z"
                             then Str.drop_last v +:+ "+00:00" else v) with
        | Some d => Ok (Absolute d)
        | None =>
            match strptime v "%H:%M:%S.%f" with
            | Some d => Ok (Absolute d)
            | None =>
                match strptime v "%H:%M:%S" with
                | Some d => Ok (Absolute d)
                | None => Raise (UnsupportedTimestampFormat v)
                end
            end
        end
    end.
Proof.
  unfold parse_timestamp, py_float.
  destruct (FloatParse.of_string (Str.strip s)); reflexivity.
Qed.

(** C1 (amended).  [parse_timestamp] classifies a timestamp value by the
    first rule that matches, in this order: a native number whose
    conversion to float succeeds is [Numeric] (a [bool] counts as the
    integer 0 or 1); a string whose whitespace-trimmed text [float]
    accepts is [Numeric]; otherwise an ISO-8601 parse of the text, with a
    trailing [Z] rewritten to [+00:00], yields [Absolute]; otherwise the
    strict [%H:%M:%S.%f] parse, then the strict [%H:%M:%S] parse, yield
    [Absolute]; and when every rule fails the call raises
    [UnsupportedTimestampFormat] carrying the trimmed text.  This holds for
    any ISO-8601 and [strptime] parsers.  In particular the string
    ["1700000000"] is [Numeric], whatever the later rules accept. *)
Theorem parse_timestamp_first_match_wins :
  forall (fromisoformat : string -> option Datetime.t)
         (strptime : string -> string -> option Datetime.t),
    let parse := parse_timestamp fromisoformat strptime in
    (forall z x, Float.of_Z z = Some x -> parse (VInt z) = Ok (Numeric x))
    /\ (forall b, parse (VBool b) = Ok (Numeric (if b then Float.one else Float.zero)))
    /\ (forall f, parse (VFloat f) = Ok (Numeric f))
    /\ (forall s x,
          FloatParse.of_string (Str.strip s) = Some x ->
          parse (VStr s) = Ok (Numeric x))
    /\ (forall s c d,
          FloatParse.of_string (Str.strip s) = None ->
          utc_designator_rewritten (Str.strip s) c ->
          fromisoformat c = Some d ->
          parse (VStr s) = Ok (Absolute d))
    /\ (forall s c d,
          FloatParse.of_string (Str.strip s) = None ->
          utc_designator_rewritten (Str.strip s) c ->
          fromisoformat c = None ->
          strptime (Str.strip s) "%H:%M:%S.%f" = Some d ->
          parse (VStr s) = Ok (Absolute d))
    /\ (forall s c d,
          FloatParse.of_string (Str.strip s) = None ->
          utc_designator_rewritten (Str.strip s) c ->
          fromisoformat c = None ->
          strptime (Str.strip s) "%H:%M:%S.%f" = None ->
          strptime (Str.strip s) "%H:%M:%S" = Some d ->
          parse (VStr s) = Ok (Absolute d))
    /\ (forall s c,
          FloatParse.of_string (Str.strip s) = None ->
          utc_designator_rewritten (Str.strip s) c ->
          fromisoformat c = None ->
          strptime (Str.strip s) "%H:%M:%S.%f" = None ->
          strptime (Str.strip s) "%H:%M:%S" = None ->
          parse (VStr s) = Raise (UnsupportedTimestampFormat (Str.strip s)))
    /\ parse (VStr "1700000000") = Ok (Numeric (Float.of_decimal 17 8)).
Proof.
  intros fromisoformat strptime parse. subst parse.
  assert (Hc : forall s c, utc_designator_rewritten (Str.strip s) c ->
    c = if Str.endswith (Str.strip s) "Z"
        then Str.drop_last (Str.strip s) +:+ "+00:00" else Str.strip s).
  { intros s c H. eapply utc_designator_rewritten_fun; [exact H |].
    apply utc_designator_rewritten_iso_candidate. }
  repeat split.
  - intros z x H. unfold parse_timestamp, py_float. now rewrite H.
  - intros s x H. rewrite parse_timestamp_str. cbn zeta. now rewrite H.
  - intros s c d H Hr Hi. rewrite parse_timestamp_str. cbn zeta.
    rewrite H, <- (Hc s c Hr), Hi. reflexivity.
  - intros s c d H Hr Hi H1. rewrite parse_timestamp_str. cbn zeta.
    rewrite H, <- (Hc s c Hr), Hi, H1. reflexivity.
  - intros s c d H Hr Hi H1 H2. rewrite parse_timestamp_str. cbn zeta.
    rewrite H, <- (Hc s c Hr), Hi, H1, H2. reflexivity.
  - intros s c H Hr Hi H1 H2. rewrite parse_timestamp_str. cbn zeta.
    rewrite H, <- (Hc s c Hr), Hi, H1, H2. reflexivity.
Qed.

Lemma not_endswith (v suffix : string) :
  Str.endswith v suffix = false -> forall t, v <> t +:+ suffix.
Proof. intros E t ->. now rewrite endswith_app in E. Qed.

(** The rules at work on the concrete parsers: one input for each rule
    that has a premise. *)
Lemma parse_timestamp_first_match_wins_witness :
  parse_timestamp_py (VInt 5) = Ok (Numeric (Float.of_Z_round 5))
  /\ parse_timestamp_py (VStr " 12.5 ") = Ok (Numeric (Float.of_decimal 125 (-1)))
  /\ parse_timestamp_py (VStr "2024-01-01T00:00:10Z")
     = Ok (Absolute (Datetime.mk 2024 1 1 0 0 10 0 (Some 0)))
  /\ parse_timestamp_py (VStr "12:00:00.5")
     = Ok (Absolute (Datetime.mk 1900 1 1 12 0 0 500000 None))
  /\ parse_timestamp_py (VStr "12:00:00")
     = Ok (Absolute (Datetime.mk 1900 1 1 12 0 0 0 None))
  /\ parse_timestamp_py (VStr " not-a-time ")
     = Raise (UnsupportedTimestampFormat "not-a-time").
Proof.
  destruct (parse_timestamp_first_match_wins
              DatetimeParse.fromisoformat DatetimeParse.strptime)
    as (H1 & _ & _ & H4 & H5 & H6 & H7 & H8 & _).
  split; [| split; [| split; [| split; [| split]]]].
  - apply H1. vm_compute. reflexivity.
  - apply H4. vm_compute. reflexivity.
  - apply (H5 _ "2024-01-01T00:00:10+00:00").
    + vm_compute. reflexivity.
    + left. exists "2024-01-01T00:00:10". split; reflexivity.
    + vm_compute. reflexivity.
  - apply (H6 _ "12:00:00.5").
    + vm_compute. reflexivity.
    + right. split; [apply not_endswith; vm_compute |]; reflexivity.
    + vm_compute. reflexivity.
    + vm_compute. reflexivity.
  - apply (H7 _ "12:00:00").
    + vm_compute. reflexivity.
    + right. split; [apply not_endswith; vm_compute |]; reflexivity.
    + vm_compute. reflexivity.
    + vm_compute. reflexivity.
    + vm_compute. reflexivity.
  - apply (H8 " not-a-time " "not-a-time").
    + vm_compute. reflexivity.
    + right. split; [apply not_endswith; vm_compute |]; reflexivity.
    + vm_compute. reflexivity.
    + vm_compute. reflexivity.
    + vm_compute. reflexivity.
Defined.

(** C1 (as stated) fails: the native integer [10**400] is a timestamp
    value, and [parse_timestamp] does not classify it as [Numeric]: the
    conversion [float(value)] raises [OverflowError].  And the error for
    an unsupported string carries the trimmed text, not the raw value. *)
Lemma parse_timestamp_huge_int_not_numeric :
  parse_timestamp_py (VInt (10 ^ 400)) = Raise OverflowError
  /\ (forall x, parse_timestamp_py (VInt (10 ^ 400)) <> Ok (Numeric x))
  /\ parse_timestamp_py (VStr " not-a-time ")
     = Raise (UnsupportedTimestampFormat "not-a-time")
  /\ parse_timestamp_py (VStr " not-a-time ")
     <> Raise (UnsupportedTimestampFormat " not-a-time ").
Proof.
  assert (E : parse_timestamp_py (VInt (10 ^ 400)) = Raise OverflowError)
    by (vm_compute; reflexivity).
  assert (E' : parse_timestamp_py (VStr " not-a-time ")
               = Raise (UnsupportedTimestampFormat "not-a-time"))
    by (vm_compute; reflexivity).
  split; [exact E |]. split; [intros x; rewrite E; discriminate |].
  split; [exact E' |]. rewrite E'. vm_compute. intros H. discriminate H.
Qed.

(** ** normalize_entries: the parsing loop *)

Lemma bind_Ok {A B : Type} (r : result A) (k : A -> result B) (b : B) :
  (r ≫= k) = Ok b -> exists a, r = Ok a /\ k a = Ok b.
Proof. destruct r as [a | e]; simpl; [eauto | discriminate]. Qed.

Lemma parse_entries_missing fromisoformat strptime
    (before after : list (gmap string pyval)) (entry : gmap string pyval) :
  entry !! "timestamp" = None ->
  exists e,
    parse_entries fromisoformat strptime (before ++ entry :: after) = Raise e.
Proof.
  intros Hm. induction before as [| r before [e IH]]; simpl.
  - rewrite Hm. eauto.
  - destruct (r !! "timestamp") as [v |]; [| eauto].
    destruct (parse_timestamp fromisoformat strptime v) as [ts | e'];
      simpl; [| eauto].
    rewrite IH. simpl. eauto.
Qed.

Lemma parse_entries_missing_first fromisoformat strptime
    (before after : list (gmap string pyval)) (entry : gmap string pyval) :
  entry !! "timestamp" = None ->
  Forall (fun r => exists v ts,
            r !! "timestamp" = Some v
            /\ parse_timestamp fromisoformat strptime v = Ok ts) before ->
  parse_entries fromisoformat strptime (before ++ entry :: after)
  = Raise MissingTimestampField.
Proof.
  intros Hm Hb. induction Hb as [| r before (v & ts & Hv & Hts) _ IH]; simpl.
  - now rewrite Hm.
  - rewrite Hv, Hts. simpl. now rewrite IH.
Qed.

(** C6 (amended).  A batch with a record that lacks the [timestamp] key
    never yields entries: [normalize_entries] raises, so no partial result
    is produced, whatever the other records are.  The error is
    [MissingTimestampField] when every record before that one has a
    timestamp that [parse_timestamp] accepts; the records after it do not
    matter. *)
Theorem missing_timestamp_aborts_batch :
  forall (fromisoformat : string -> option Datetime.t)
         (strptime : string -> string -> option Datetime.t)
         (before after : list (gmap string pyval)) (entry : gmap string pyval),
    entry !! "timestamp" = None ->
    (exists e,
       normalize_entries fromisoformat strptime (before ++ entry :: after)
       = Raise e)
    /\ (Forall (fun r => exists v ts,
                  r !! "timestamp" = Some v
                  /\ parse_timestamp fromisoformat strptime v = Ok ts) before ->
        normalize_entries fromisoformat strptime (before ++ entry :: after)
        = Raise MissingTimestampField).
Proof.
  intros fromisoformat strptime before after entry Hm. split.
  - destruct (parse_entries_missing fromisoformat strptime before after entry Hm)
      as [e He].
    exists e. unfold normalize_entries. now rewrite He.
  - intros Hb. unfold normalize_entries.
    now rewrite (parse_entries_missing_first _ _ _ _ _ Hm Hb).
Qed.

(** A batch whose third record has no timestamp and whose fourth has one
    that does not parse. *)
Lemma missing_timestamp_aborts_batch_witness :
  (exists e,
     normalize_entries_py
       ([timestamp_record (VInt 3); timestamp_record (VStr "7.5")]
        ++ {[ "speed" := VInt 40 ]} :: [timestamp_record (VStr "bad")])
     = Raise e)
  /\ normalize_entries_py
       ([timestamp_record (VInt 3); timestamp_record (VStr "7.5")]
        ++ {[ "speed" := VInt 40 ]} :: [timestamp_record (VStr "bad")])
     = Raise MissingTimestampField.
Proof.
  destruct (missing_timestamp_aborts_batch
              DatetimeParse.fromisoformat DatetimeParse.strptime
              [timestamp_record (VInt 3); timestamp_record (VStr "7.5")]
              [timestamp_record (VStr "bad")]
              {[ "speed" := VInt 40 ]}) as [Ha Hb].
  - vm_compute. reflexivity.
  - split; [exact Ha |]. apply Hb.
    repeat constructor.
    + exists (VInt 3), (Numeric (Float.of_Z_round 3)).
      split; vm_compute; reflexivity.
    + exists (VStr "7.5"), (Numeric (Float.of_decimal 75 (-1))).
      split; vm_compute; reflexivity.
Defined.

(** C6 (as stated) fails: in the batch below the second record lacks the
    [timestamp] key, and the batch fails with [UnsupportedTimestampFormat],
    raised for the first record before the second one is looked at. *)
Lemma missing_timestamp_after_bad_timestamp :
  normalize_entries_py [timestamp_record (VStr "not-a-time"); ∅]
  = Raise (UnsupportedTimestampFormat "not-a-time")
  /\ normalize_entries_py [timestamp_record (VStr "not-a-time"); ∅]
     <> Raise MissingTimestampField.
Proof.
  assert (E : normalize_entries_py [timestamp_record (VStr "not-a-time"); ∅]
              = Raise (UnsupportedTimestampFormat "not-a-time"))
    by (vm_compute; reflexivity).
  split; [exact E |]. rewrite E. discriminate.
Qed.

(** ** normalize_entries: building the entries *)

Lemma mapM_ext {A B : Type} (f g : A -> result B) (l : list A) :
  (forall x, In x l -> f x = g x) -> mapM f l = mapM g l.
Proof.
  induction l as [| x l IH]; intros H; [reflexivity |].
  cbn [mapM]. rewrite (H x (or_introl eq_refl)), IH; [reflexivity |].
  intros y Hy. apply H. now right.
Qed.

Lemma mapM_Ok {A B : Type} (f : A -> result B) (l : list A) (out : list B) :
  mapM f l = Ok out -> Forall2 (fun x y => f x = Ok y) l out.
Proof.
  revert out. induction l as [| x l IH]; intros out H.
  - injection H as <-. constructor.
  - cbn [mapM] in H. apply bind_Ok in H as (y & Hy & H).
    apply bind_Ok in H as (ys & Hys & H). injection H as <-.
    constructor; [exact Hy | apply IH, Hys].
Qed.

Lemma mapM_is_Ok {A B : Type} (f : A -> result B) (l : list A) :
  Forall (fun x => exists y, f x = Ok y) l -> exists out, mapM f l = Ok out.
Proof.
  induction 1 as [| x l [y Hy] _ [ys IH]]; [now exists [] |].
  exists (y :: ys). cbn [mapM]. now rewrite Hy, IH.
Qed.

Lemma make_entry_Ok (offset : spec_float) (display : string)
    (data : gmap string pyval) (e : TelemetryEntry) :
  make_entry offset display data = Ok e ->
  offset_seconds e = offset /\ display_timestamp e = display.
Proof.
  unfold make_entry. intros H.
  apply bind_Ok in H as (sp & _ & H). apply bind_Ok in H as (la & _ & H).
  apply bind_Ok in H as (lo & _ & H). injection H as <-. now split.
Qed.

Lemma make_entry_convert (offset : spec_float) (display : string)
    (data : gmap string pyval) :
  auxiliary_fields_convert data ->
  exists e, make_entry offset display data = Ok e.
Proof.
  intros (sp & la & lo & Hs & Hla & Hlo). unfold make_entry.
  rewrite Hs, Hla, Hlo. simpl. eauto.
Qed.

Lemma has_datetimes_true (parsed : list (timestamp * gmap string pyval)) :
  Exists (fun p => is_datetime (fst p) = true) parsed ->
  existsb (fun p => is_datetime (fst p)) parsed = true.
Proof.
  induction 1 as [p parsed Hp | p parsed _ IH]; simpl.
  - now rewrite Hp.
  - rewrite IH. apply orb_true_r.
Qed.

Lemma has_datetimes_false (parsed : list (timestamp * gmap string pyval))
    (values : list spec_float) :
  map fst parsed = map Numeric values ->
  existsb (fun p => is_datetime (fst p)) parsed = false.
Proof.
  revert values. induction parsed as [| [ts data] parsed IH];
    intros [| x values] H; try discriminate; [reflexivity |].
  injection H as -> H. simpl. eapply IH, H.
Qed.

Lemma all_datetimes_numeric (parsed : list (timestamp * gmap string pyval)) :
  Exists (fun p => is_datetime (fst p) = false) parsed ->
  all_datetimes (map datetime_or_none parsed) = None.
Proof.
  induction 1 as [[ts data] parsed H | [ts data] parsed _ IH]; simpl in *.
  - destruct ts; [reflexivity | discriminate].
  - destruct ts; cbn; [reflexivity |]. now rewrite IH.
Qed.

Lemma all_datetimes_absolute (parsed : list (timestamp * gmap string pyval))
    (instants : list Datetime.t) :
  map fst parsed = map Absolute instants ->
  all_datetimes (map datetime_or_none parsed)
  = Some (zip instants (map snd parsed)).
Proof.
  revert instants. induction parsed as [| [ts data] parsed IH];
    intros [| d instants] H; try discriminate; [reflexivity |].
  injection H as -> H. cbn. now rewrite (IH _ H).
Qed.

(** C5.  When the timestamps of a batch all parse and at least one is
    [Absolute] and at least one is [Numeric], [normalize_entries] raises
    [MixedTimestampFormats] and yields no entries; in particular a batch of
    one ISO-8601 entry and one bare numeric entry fails this way. *)
Theorem mixed_formats_rejected :
  (forall (fromisoformat : string -> option Datetime.t)
          (strptime : string -> string -> option Datetime.t)
          (batch : list (gmap string pyval))
          (parsed : list (timestamp * gmap string pyval)),
      parse_entries fromisoformat strptime batch = Ok parsed ->
      Exists (fun p => is_datetime (fst p) = true) parsed ->
      Exists (fun p => is_datetime (fst p) = false) parsed ->
      normalize_entries fromisoformat strptime batch
      = Raise MixedTimestampFormats)
  /\ normalize_entries_py
       [timestamp_record (VStr "2024-01-01T00:00:00Z");
        timestamp_record (VInt 5)]
     = Raise MixedTimestampFormats.
Proof.
  split; [| vm_compute; reflexivity].
  intros fromisoformat strptime batch parsed Hp Habs Hnum.
  unfold normalize_entries. rewrite Hp. cbn.
  unfold build_offsets. rewrite (has_datetimes_true _ Habs).
  now rewrite (all_datetimes_numeric _ Hnum).
Qed.

(** A batch of a clock string, a numeric string and an ISO-8601 string. *)
Lemma mixed_formats_rejected_witness :
  normalize_entries_py
    [timestamp_record (VStr "12:30:00"); timestamp_record (VStr "42.5");
     timestamp_record (VStr "2024-01-01 08:00")]
  = Raise MixedTimestampFormats.
Proof.
  apply (proj1 mixed_formats_rejected
           DatetimeParse.fromisoformat DatetimeParse.strptime _
           [(Absolute (Datetime.mk 1900 1 1 12 30 0 0 None),
             timestamp_record (VStr "12:30:00"));
            (Numeric (Float.of_decimal 425 (-1)),
             timestamp_record (VStr "42.5"));
            (Absolute (Datetime.mk 2024 1 1 8 0 0 0 None),
             timestamp_record (VStr "2024-01-01 08:00"))]).
  - vm_compute. reflexivity.
  - apply Exists_cons_hd. reflexivity.
  - apply Exists_cons_tl, Exists_cons_hd. reflexivity.
Defined.

Lemma numeric_entries_spec (parsed : list (timestamp * gmap string pyval))
    (values : list spec_float) (offsets : list TelemetryEntry) :
  map fst parsed = map Numeric values ->
  mapM numeric_entry parsed = Ok offsets ->
  Forall2 (fun x e => offset_seconds e = x
                      /\ display_timestamp e = seconds_label x)
          values offsets.
Proof.
  revert values offsets. induction parsed as [| [ts data] parsed IH];
    intros [| x values] offsets H Hm; try discriminate.
  - injection Hm as <-. constructor.
  - injection H as -> H. cbn [mapM] in Hm.
    apply bind_Ok in Hm as (e & He & Hm).
    apply bind_Ok in Hm as (es & Hes & Hm). injection Hm as <-.
    constructor; [| now apply IH].
    now apply make_entry_Ok in He.
Qed.

Lemma numeric_entries_convert (parsed : list (timestamp * gmap string pyval))
    (values : list spec_float) :
  map fst parsed = map Numeric values ->
  Forall (fun p => auxiliary_fields_convert (snd p)) parsed ->
  exists offsets, mapM numeric_entry parsed = Ok offsets.
Proof.
  intros H Hc. apply mapM_is_Ok.
  revert values H. induction Hc as [| [ts data] parsed Hd _ IH];
    intros [| x values] H; try discriminate; constructor.
  - injection H as -> _. apply make_entry_convert, Hd.
  - injection H as _ H. eapply IH, H.
Qed.

(** C4.  When the timestamps of a batch all parse to [Numeric] values,
    the entries are built in input order with [offset_seconds] the parsed
    value itself (nothing is subtracted) and [display_timestamp] the value
    formatted to 3 decimals followed by [s]; the result is these entries
    sorted.  The entries are produced whenever the auxiliary fields of
    every record convert. *)
Theorem numeric_mode_offsets :
  forall (fromisoformat : string -> option Datetime.t)
         (strptime : string -> string -> option Datetime.t)
         (batch : list (gmap string pyval))
         (parsed : list (timestamp * gmap string pyval))
         (values : list spec_float),
    parse_entries fromisoformat strptime batch = Ok parsed ->
    map fst parsed = map Numeric values ->
    (forall offsets,
        build_offsets parsed = Ok offsets ->
        Forall2 (fun x e => offset_seconds e = x
                            /\ display_timestamp e = seconds_label x)
                values offsets)
    /\ normalize_entries fromisoformat strptime batch
       = (offsets ← build_offsets parsed;
          Ok (sort_by_key offset_seconds offsets))
    /\ (Forall (fun p => auxiliary_fields_convert (snd p)) parsed ->
        exists offsets, build_offsets parsed = Ok offsets).
Proof.
  intros fromisoformat strptime batch parsed values Hp Hv.
  assert (Hb : build_offsets parsed = mapM numeric_entry parsed).
  { unfold build_offsets. now rewrite (has_datetimes_false _ _ Hv). }
  repeat split.
  - intros offsets Ho. rewrite Hb in Ho. eapply numeric_entries_spec; eauto.
  - unfold normalize_entries. now rewrite Hp.
  - intros Hc. rewrite Hb. eapply numeric_entries_convert; eauto.
Qed.

(** A batch of an epoch-sized integer and a numeric string whose record
    has a speed that is not a number. *)
Lemma numeric_mode_offsets_witness :
  exists offsets,
    build_offsets [(Numeric (Float.of_Z_round 1700000000),
                    timestamp_record (VInt 1700000000));
                   (Numeric (Float.of_decimal 25 (-1)),
                    <[ "speed" := VStr "fast" ]> (timestamp_record (VStr "2.5")))]
    = Ok offsets
    /\ Forall2 (fun x e => offset_seconds e = x
                           /\ display_timestamp e = seconds_label x)
               [Float.of_Z_round 1700000000; Float.of_decimal 25 (-1)] offsets.
Proof.
  destruct (numeric_mode_offsets
              DatetimeParse.fromisoformat DatetimeParse.strptime
              [timestamp_record (VInt 1700000000);
               <[ "speed" := VStr "fast" ]> (timestamp_record (VStr "2.5"))]
              [(Numeric (Float.of_Z_round 1700000000),
                timestamp_record (VInt 1700000000));
               (Numeric (Float.of_decimal 25 (-1)),
                <[ "speed" := VStr "fast" ]> (timestamp_record (VStr "2.5")))]
              [Float.of_Z_round 1700000000; Float.of_decimal 25 (-1)])
    as (Hspec & _ & Hconv).
  - vm_compute. reflexivity.
  - reflexivity.
  - destruct Hconv as [offsets Ho].
    + repeat constructor; exists None, None, None; repeat split;
        vm_compute; reflexivity.
    + exists offsets. split; [exact Ho | apply Hspec, Ho].
Defined.

(** ** Arithmetic on datetimes *)

Lemma sub_same_awareness (a b : Datetime.t) :
  Datetime.aware a = Datetime.aware b ->
  Datetime.sub a b = Ok (instant a - instant b).
Proof.
  unfold Datetime.aware, Datetime.sub, instant.
  destruct (Datetime.tzinfo a), (Datetime.tzinfo b); simpl;
    intros H; try discriminate; f_equal; lia.
Qed.

Lemma sub_mixed_awareness (a b : Datetime.t) :
  Datetime.aware a <> Datetime.aware b -> Datetime.sub a b = Raise TypeError.
Proof.
  unfold Datetime.aware, Datetime.sub.
  destruct (Datetime.tzinfo a), (Datetime.tzinfo b); simpl; congruence.
Qed.

Lemma min_from_uniform (current : Datetime.t) (rest : list Datetime.t) :
  Forall (fun d => Datetime.aware d = Datetime.aware current) rest ->
  exists m,
    Datetime.min_from current rest = Ok m
    /\ In m (current :: rest)
    /\ Datetime.aware m = Datetime.aware current
    /\ Forall (fun d => instant m <= instant d) (current :: rest).
Proof.
  revert current. induction rest as [| item rest IH]; intros current Hu.
  - exists current. repeat split; [now left | repeat constructor; lia].
  - inversion Hu as [| ? ? Hitem Hrest]; subst.
    cbn [Datetime.min_from]. unfold Datetime.lt.
    rewrite (sub_same_awareness _ _ Hitem). cbn.
    set (smaller := instant item - instant current <? 0).
    set (c := if smaller then item else current).
    assert (Hc : Datetime.aware c = Datetime.aware current)
      by (subst c; now destruct smaller).
    assert (Hle : instant c <= instant current /\ instant c <= instant item).
    { subst c smaller.
      destruct (Z.ltb_spec (instant item - instant current) 0); lia. }
    destruct (IH c) as (m & Hm & Hin & Ha & Hall).
    { rewrite Hc. exact Hrest. }
    exists m. split; [exact Hm |]. split; [| split; [congruence |]].
    + destruct Hin as [<- | Hin]; [| now right; right].
      subst c. destruct smaller; [right; now left | now left].
    + inversion Hall as [| ? ? Hmc Hmrest]; subst.
      repeat constructor; [lia | lia | exact Hmrest].
Qed.

Lemma min_uniform (ds : list Datetime.t) :
  ds <> [] -> uniform_awareness ds ->
  exists start,
    Datetime.min ds = Ok start
    /\ In start ds
    /\ Forall (fun d => Datetime.aware d = Datetime.aware start) ds
    /\ Forall (fun d => instant start <= instant d) ds.
Proof.
  destruct ds as [| d rest]; [congruence |]. intros _ Hu.
  assert (Hall : Forall (fun x => Datetime.aware x = Datetime.aware d) (d :: rest)).
  { constructor; [reflexivity |].
    destruct Hu as [Hu | Hu]; inversion Hu as [| ? ? Hd Hr]; subst;
      (eapply List.Forall_impl; [| exact Hr]); cbv beta; congruence. }
  inversion Hall as [| ? ? _ Hrest]; subst.
  destruct (min_from_uniform d rest Hrest) as (m & Hm & Hin & Ha & Hle).
  exists m. repeat split; try assumption.
  eapply List.Forall_impl; [| exact Hall]. cbv beta. congruence.
Qed.

Lemma min_from_Ok (current : Datetime.t) (rest : list Datetime.t) (m : Datetime.t) :
  Datetime.min_from current rest = Ok m ->
  Forall (fun d => Datetime.aware d = Datetime.aware current) rest.
Proof.
  revert current. induction rest as [| item rest IH]; intros current H;
    [constructor |].
  cbn [Datetime.min_from] in H. apply bind_Ok in H as (smaller & Hlt & H).
  assert (Ha : Datetime.aware item = Datetime.aware current).
  { destruct (bool_decide (Datetime.aware item = Datetime.aware current)) eqn:E.
    - now apply bool_decide_eq_true in E.
    - apply bool_decide_eq_false in E. unfold Datetime.lt in Hlt.
      now rewrite (sub_mixed_awareness _ _ E) in Hlt. }
  constructor; [exact Ha |].
  apply IH in H. eapply List.Forall_impl; [| exact H]. cbv beta.
  intros d Hd. rewrite Hd. now destruct smaller.
Qed.

Lemma min_from_raises (current : Datetime.t) (rest : list Datetime.t) (e : exn) :
  Datetime.min_from current rest = Raise e -> e = TypeError.
Proof.
  revert current. induction rest as [| item rest IH]; intros current H;
    [discriminate |].
  cbn [Datetime.min_from] in H. unfold Datetime.lt, Datetime.sub in H.
  destruct (Datetime.tzinfo item), (Datetime.tzinfo current); cbn in H;
    try (now injection H); eapply IH, H.
Qed.

(** [min] over values that are not uniformly aware or naive raises
    [TypeError]. *)
Lemma min_mixed_awareness (ds : list Datetime.t) (a n : Datetime.t) :
  In a ds -> Datetime.aware a = true ->
  In n ds -> Datetime.aware n = false ->
  Datetime.min ds = Raise TypeError.
Proof.
  intros Ha Hat Hn Hnf. destruct ds as [| d rest]; [destruct Ha |].
  cbn [Datetime.min]. destruct (Datetime.min_from d rest) as [m | e] eqn:E.
  - apply min_from_Ok in E. rewrite Forall_forall in E.
    assert (Hd : forall x, In x (d :: rest) ->
                           Datetime.aware x = Datetime.aware d).
    { intros x [<- | Hx]; [reflexivity |]. apply E, list_elem_of_In, Hx. }
    rewrite <- (Hd a Ha) in Hd. rewrite (Hd n Hn) in Hnf. congruence.
  - now rewrite (min_from_raises _ _ _ E).
Qed.

Lemma map_fst_zip {A B : Type} (l : list A) (k : list B) :
  length l = length k -> map fst (zip l k) = l.
Proof.
  revert k. induction l as [| x l IH]; intros [| y k] H; try discriminate;
    [reflexivity |].
  cbn. f_equal. apply IH. now injection H.
Qed.

Lemma absolute_entries_spec (start : Datetime.t)
    (entries : list (Datetime.t * gmap string pyval))
    (offsets : list TelemetryEntry) :
  Forall (fun p => Datetime.aware (fst p) = Datetime.aware start) entries ->
  mapM (absolute_entry start) entries = Ok offsets ->
  Forall2 (fun d e =>
             offset_seconds e = Datetime.total_seconds (instant d - instant start)
             /\ display_timestamp e = Datetime.isoformat d)
          (map fst entries) offsets.
Proof.
  intros Hu. revert offsets. induction Hu as [| [d data] entries Hd _ IH];
    intros offsets Hm.
  - injection Hm as <-. constructor.
  - cbn [mapM] in Hm. apply bind_Ok in Hm as (e & He & Hm).
    apply bind_Ok in Hm as (es & Hes & Hm). injection Hm as <-.
    constructor; [| now apply IH].
    unfold absolute_entry in He. cbn [fst snd] in *.
    rewrite (sub_same_awareness _ _ Hd) in He. cbn in He.
    now apply make_entry_Ok in He.
Qed.

Lemma absolute_entries_convert (start : Datetime.t)
    (entries : list (Datetime.t * gmap string pyval)) :
  Forall (fun p => Datetime.aware (fst p) = Datetime.aware start) entries ->
  Forall (fun p => auxiliary_fields_convert (snd p)) entries ->
  exists offsets, mapM (absolute_entry start) entries = Ok offsets.
Proof.
  intros Hu Hc. apply mapM_is_Ok.
  induction Hu as [| [d data] entries Hd _ IH]; [constructor |].
  inversion Hc as [| ? ? Hdata Hrest]; subst.
  constructor; [| apply IH, Hrest].
  unfold absolute_entry. cbn [fst snd] in *.
  rewrite (sub_same_awareness _ _ Hd). cbn.
  apply make_entry_convert, Hdata.
Qed.

Lemma build_offsets_absolute (parsed : list (timestamp * gmap string pyval))
    (instants : list Datetime.t) :
  map fst parsed = map Absolute instants ->
  instants <> [] ->
  build_offsets parsed
  = (start_time ← Datetime.min instants;
     mapM (absolute_entry start_time) (zip instants (map snd parsed))).
Proof.
  intros Hv Hne. unfold build_offsets.
  assert (Hlen : length instants = length (map snd parsed)).
  { rewrite length_map, <- (length_map fst parsed), Hv. now rewrite length_map. }
  replace (existsb (fun p => is_datetime (fst p)) parsed) with true.
  - rewrite (all_datetimes_absolute _ _ Hv). now rewrite map_fst_zip.
  - destruct parsed as [| [ts data] parsed], instants as [| d instants];
      try discriminate; [congruence |].
    injection Hv as -> _. reflexivity.
Qed.

Lemma Forall_fst_zip {A B : Type} (P : A -> Prop) (l : list A) (k : list B) :
  Forall P l -> Forall (fun p => P (fst p)) (zip l k).
Proof.
  intros H. revert k. induction H as [| x l Hx _ IH]; intros [| y k];
    constructor; [exact Hx | apply IH].
Qed.

Lemma Forall_snd_zip_map {A B C : Type} (P : C -> Prop) (l : list A)
    (k : list (B * C)) :
  Forall (fun p => P (snd p)) k -> Forall (fun p => P (snd p)) (zip l (map snd k)).
Proof.
  intros H. revert l. induction H as [| x k Hx _ IH]; intros [| y l];
    constructor; [exact Hx | apply IH].
Qed.

(** C3 (amended).  When the timestamps of a non-empty batch all parse to
    [Absolute] instants that are all aware or all naive,
    [normalize_entries] takes as start the minimum instant and builds the
    entries in input order with [offset_seconds] the float number of
    seconds of (instant - start) and [display_timestamp] the instant in
    ISO-8601; the result is these entries sorted, and they are produced
    whenever the auxiliary fields of every record convert.  In particular
    the batch [["2024-01-01T00:00:10Z", "2024-01-01T00:00:00Z"]] has the
    offsets [[10.0, 0.0]] before sorting and [[0.0, 10.0]] after, and the
    second input record comes first in the result. *)
Theorem absolute_mode_offsets :
  (forall (fromisoformat : string -> option Datetime.t)
          (strptime : string -> string -> option Datetime.t)
          (batch : list (gmap string pyval))
          (parsed : list (timestamp * gmap string pyval))
          (instants : list Datetime.t),
      parse_entries fromisoformat strptime batch = Ok parsed ->
      map fst parsed = map Absolute instants ->
      instants <> [] ->
      uniform_awareness instants ->
      exists start,
        Datetime.min instants = Ok start
        /\ In start instants
        /\ Forall (fun d => instant start <= instant d) instants
        /\ (forall offsets,
              build_offsets parsed = Ok offsets ->
              Forall2 (fun d e =>
                         offset_seconds e
                         = Datetime.total_seconds (instant d - instant start)
                         /\ display_timestamp e = Datetime.isoformat d)
                      instants offsets)
        /\ normalize_entries fromisoformat strptime batch
           = (offsets ← build_offsets parsed;
              Ok (sort_by_key offset_seconds offsets))
        /\ (Forall (fun p => auxiliary_fields_convert (snd p)) parsed ->
            exists offsets, build_offsets parsed = Ok offsets))
  /\ (exists parsed offsets out,
        parse_entries DatetimeParse.fromisoformat DatetimeParse.strptime
          [timestamp_record (VStr "2024-01-01T00:00:10Z");
           timestamp_record (VStr "2024-01-01T00:00:00Z")] = Ok parsed
        /\ build_offsets parsed = Ok offsets
        /\ map offset_seconds offsets = [Float.of_Z_round 10; Float.zero]
        /\ normalize_entries_py
             [timestamp_record (VStr "2024-01-01T00:00:10Z");
              timestamp_record (VStr "2024-01-01T00:00:00Z")] = Ok out
        /\ map offset_seconds out = [Float.zero; Float.of_Z_round 10]
        /\ map display_timestamp out
           = ["2024-01-01T00:00:00+00:00"; "2024-01-01T00:00:10+00:00"]).
Proof.
  split.
  - intros fromisoformat strptime batch parsed instants Hp Hv Hne Hu.
    destruct (min_uniform instants Hne Hu) as (start & Hmin & Hin & Haw & Hle).
    pose proof (build_offsets_absolute parsed instants Hv Hne) as Hb.
    rewrite Hmin in Hb. cbn in Hb.
    assert (Hlen : length instants = length (map snd parsed)).
    { rewrite length_map, <- (length_map fst parsed), Hv.
      now rewrite length_map. }
    assert (Hz : Forall (fun p => Datetime.aware (fst p) = Datetime.aware start)
                        (zip instants (map snd parsed)))
      by (apply (Forall_fst_zip (fun d => Datetime.aware d = Datetime.aware start)),
            Haw).
    exists start. repeat split; try assumption.
    + intros offsets Ho. rewrite Hb in Ho.
      rewrite <- (map_fst_zip instants (map snd parsed) Hlen).
      now apply absolute_entries_spec.
    + unfold normalize_entries. now rewrite Hp.
    + intros Hc. rewrite Hb. apply absolute_entries_convert; [exact Hz |].
      now apply Forall_snd_zip_map.
  - eexists _, _, _. repeat split; vm_compute; reflexivity.
Qed.

(** A batch of two naive clock readings given out of order. *)
Lemma absolute_mode_offsets_witness :
  exists start offsets,
    In start [Datetime.mk 1900 1 1 12 0 5 0 None;
              Datetime.mk 1900 1 1 12 0 0 500000 None]
    /\ build_offsets
         [(Absolute (Datetime.mk 1900 1 1 12 0 5 0 None),
           timestamp_record (VStr "12:00:05"));
          (Absolute (Datetime.mk 1900 1 1 12 0 0 500000 None),
           timestamp_record (VStr "12:00:00.5"))] = Ok offsets
    /\ Forall2 (fun d e =>
                  offset_seconds e
                  = Datetime.total_seconds (instant d - instant start)
                  /\ display_timestamp e = Datetime.isoformat d)
               [Datetime.mk 1900 1 1 12 0 5 0 None;
                Datetime.mk 1900 1 1 12 0 0 500000 None] offsets.
Proof.
  destruct (proj1 absolute_mode_offsets
              DatetimeParse.fromisoformat DatetimeParse.strptime
              [timestamp_record (VStr "12:00:05");
               timestamp_record (VStr "12:00:00.5")]
              [(Absolute (Datetime.mk 1900 1 1 12 0 5 0 None),
                timestamp_record (VStr "12:00:05"));
               (Absolute (Datetime.mk 1900 1 1 12 0 0 500000 None),
                timestamp_record (VStr "12:00:00.5"))]
              [Datetime.mk 1900 1 1 12 0 5 0 None;
               Datetime.mk 1900 1 1 12 0 0 500000 None])
    as (start & _ & Hin & _ & Hspec & _ & Hconv).
  - vm_compute. reflexivity.
  - reflexivity.
  - discriminate.
  - right. repeat constructor.
  - destruct Hconv as [offsets Ho].
    + repeat constructor; exists None, None, None; repeat split;
        vm_compute; reflexivity.
    + exists start, offsets. repeat split; [exact Hin | exact Ho |].
      apply Hspec, Ho.
Defined.

(** C3 (as stated) fails: both timestamps of the batch below parse to
    [Absolute] instants, the first aware and the second naive, and
    [normalize_entries] computes no start and no offsets: taking the
    minimum raises [TypeError]. *)
Lemma absolute_mode_aware_and_naive :
  parse_entries DatetimeParse.fromisoformat DatetimeParse.strptime
    [timestamp_record (VStr "2024-01-01T00:00:10Z");
     timestamp_record (VStr "00:00:00")]
  = Ok [(Absolute (Datetime.mk 2024 1 1 0 0 10 0 (Some 0)),
         timestamp_record (VStr "2024-01-01T00:00:10Z"));
        (Absolute (Datetime.mk 1900 1 1 0 0 0 0 None),
         timestamp_record (VStr "00:00:00"))]
  /\ normalize_entries_py
       [timestamp_record (VStr "2024-01-01T00:00:10Z");
        timestamp_record (VStr "00:00:00")]
     = Raise TypeError.
Proof. split; vm_compute; reflexivity. Qed.

(** Every batch of [Absolute] instants of which one is aware and one is
    naive fails this way. *)
Lemma normalize_entries_mixed_awareness fromisoformat strptime
    (batch : list (gmap string pyval))
    (parsed : list (timestamp * gmap string pyval))
    (instants : list Datetime.t) (a n : Datetime.t) :
  parse_entries fromisoformat strptime batch = Ok parsed ->
  map fst parsed = map Absolute instants ->
  In a instants -> Datetime.aware a = true ->
  In n instants -> Datetime.aware n = false ->
  normalize_entries fromisoformat strptime batch = Raise TypeError.
Proof.
  intros Hp Hv Ha Hat Hn Hnf. unfold normalize_entries. rewrite Hp. cbn.
  rewrite (build_offsets_absolute parsed instants Hv).
  - now rewrite (min_mixed_awareness instants a n).
  - intros ->. destruct Ha.
Qed.

(** C10.  There is a batch whose timestamps all parse to [Absolute]
    instants, one aware (an ISO-8601 string with a UTC offset) and one
    naive (a bare [HH:MM:SS] string), on which [normalize_entries] raises
    [TypeError], an error that is none of [MissingTimestampField],
    [UnsupportedTimestampFormat] and [MixedTimestampFormats], and produces
    no offsets. *)
Theorem aware_naive_mix_raises_TypeError :
  exists (batch : list (gmap string pyval))
         (parsed : list (timestamp * gmap string pyval))
         (a n : Datetime.t),
    parse_entries DatetimeParse.fromisoformat DatetimeParse.strptime batch
    = Ok parsed
    /\ map fst parsed = [Absolute a; Absolute n]
    /\ Datetime.aware a = true
    /\ Datetime.aware n = false
    /\ normalize_entries_py batch = Raise TypeError
    /\ TypeError <> MissingTimestampField
    /\ TypeError <> MixedTimestampFormats
    /\ forall value, TypeError <> UnsupportedTimestampFormat value.
Proof.
  exists [timestamp_record (VStr "2024-03-09T08:00:00+02:00");
          timestamp_record (VStr "08:00:05")].
  eexists _, _, _. split; [vm_compute; reflexivity |].
  split; [reflexivity |]. split; [reflexivity |]. split; [reflexivity |].
  split.
  - eapply (normalize_entries_mixed_awareness _ _ _ _
              [Datetime.mk 2024 3 9 8 0 0 0 (Some 7200000000);
               Datetime.mk 1900 1 1 8 0 5 0 None]);
      [vm_compute; reflexivity | reflexivity | | | | ].
    + left. reflexivity.
    + reflexivity.
    + right. left. reflexivity.
    + reflexivity.
  - repeat split; discriminate.
Qed.

(** ** normalize_entries: the order of the result *)

(** C2 (amended).  When [normalize_entries] accepts a batch, the list it
    returns is a permutation of the entries built from the records; and
    when no [offset_seconds] is NaN the list is sorted non-decreasing by
    [offset_seconds] and entries with equal [offset_seconds] keep their
    input order. *)
Theorem normalize_entries_sorted_stable :
  forall (fromisoformat : string -> option Datetime.t)
         (strptime : string -> string -> option Datetime.t)
         (batch : list (gmap string pyval)) (out : list TelemetryEntry),
    normalize_entries fromisoformat strptime batch = Ok out ->
    exists parsed offsets,
      parse_entries fromisoformat strptime batch = Ok parsed
      /\ build_offsets parsed = Ok offsets
      /\ Permutation offsets out
      /\ (Forall (fun e => Float.is_nan (offset_seconds e) = false) out ->
          Sorted (key_le offset_seconds) out
          /\ stable offset_seconds offsets out).
Proof.
  intros fromisoformat strptime batch out H. unfold normalize_entries in H.
  apply bind_Ok in H as (parsed & Hp & H).
  apply bind_Ok in H as (offsets & Ho & H). injection H as <-.
  exists parsed, offsets. repeat split; try assumption.
  - apply sort_by_key_perm.
  - apply sort_by_key_sorted.
    eapply Permutation_Forall; [| eassumption].
    symmetry. apply sort_by_key_perm.
  - intros k. apply sort_by_key_filter.
Qed.

(** A batch with two equal offsets. *)
Lemma normalize_entries_sorted_stable_witness :
  exists out,
    normalize_entries_py
      [timestamp_record (VStr "7"); timestamp_record (VInt 3);
       timestamp_record (VStr "7.0"); timestamp_record (VFloat Float.zero)]
    = Ok out
    /\ stable offset_seconds
         [mkTelemetryEntry (Float.of_Z_round 7) "7.000s" None None None;
          mkTelemetryEntry (Float.of_Z_round 3) "3.000s" None None None;
          mkTelemetryEntry (Float.of_Z_round 7) "7.000s" None None None;
          mkTelemetryEntry Float.zero "0.000s" None None None] out
    /\ Sorted (key_le offset_seconds) out.
Proof.
  eexists. split; [vm_compute; reflexivity |].
  destruct (normalize_entries_sorted_stable
              DatetimeParse.fromisoformat DatetimeParse.strptime
              [timestamp_record (VStr "7"); timestamp_record (VInt 3);
               timestamp_record (VStr "7.0"); timestamp_record (VFloat Float.zero)]
              _ ltac:(vm_compute; reflexivity))
    as (parsed & offsets & Hp & Ho & _ & Hs).
  vm_compute in Hp. injection Hp as <-.
  vm_compute in Ho. injection Ho as <-.
  destruct Hs as [Hsorted Hstable]; [repeat constructor |].
  split; [exact Hstable | exact Hsorted].
Defined.

Lemma Sorted_app_r {A : Type} (R : A -> A -> Prop) (l1 l2 : list A) :
  Sorted R (l1 ++ l2) -> Sorted R l2.
Proof.
  induction l1 as [| x l1 IH]; [trivial |].
  intros H. apply IH. now inversion H.
Qed.

Lemma leb_nan (x y : spec_float) :
  Float.is_nan x = true \/ Float.is_nan y = true -> Float.leb x y = false.
Proof. destruct x, y; intros [H | H]; try discriminate H; reflexivity. Qed.

(** No arrangement of two or more elements of which one has a NaN key is
    sorted. *)
Lemma nan_key_never_sorted {A : Type} (key : A -> spec_float) (l : list A)
    (x : A) :
  In x l -> Float.is_nan (key x) = true -> (2 <= length l)%nat ->
  ~ Sorted (key_le key) l.
Proof.
  intros Hin Hnan Hlen Hs. apply in_split in Hin as (l1 & l2 & ->).
  destruct l2 as [| y l2].
  - destruct (exists_last (l := l1)) as (l1' & z & ->).
    { intros ->. cbn in Hlen. lia. }
    rewrite <- app_assoc in Hs. apply Sorted_app_r in Hs.
    inversion Hs as [| ? ? _ Hhd]; subst.
    inversion Hhd as [| ? ? Hle]; subst. unfold key_le in Hle.
    rewrite leb_nan in Hle; [discriminate | now right].
  - apply Sorted_app_r in Hs. inversion Hs as [| ? ? _ Hhd]; subst.
    inversion Hhd as [| ? ? Hle]; subst. unfold key_le in Hle.
    rewrite leb_nan in Hle; [discriminate | now left].
Qed.

(** C2 (as stated) fails: the batch below is accepted, its second
    timestamp is the float NaN (the string ["nan"] parses as a number),
    and the returned list has the offsets 2.0, NaN, 1.0 in this order,
    which is not sorted non-decreasing; indeed no arrangement of these
    entries is sorted, whatever the sort does with the NaN. *)
Lemma normalize_entries_nan_unsorted :
  exists out,
    normalize_entries_py
      [timestamp_record (VInt 2); timestamp_record (VStr "nan");
       timestamp_record (VInt 1)] = Ok out
    /\ map offset_seconds out
       = [Float.of_Z_round 2; Float.nan; Float.of_Z_round 1]
    /\ Float.leb (Float.of_Z_round 2) (Float.of_Z_round 1) = false
    /\ ~ Sorted (key_le offset_seconds) out
    /\ forall arrangement,
         Permutation out arrangement ->
         ~ Sorted (key_le offset_seconds) arrangement.
Proof.
  eexists. split; [vm_compute; reflexivity |].
  split; [vm_compute; reflexivity |]. split; [vm_compute; reflexivity |].
  assert (Hall : forall arrangement,
             Permutation
               [mkTelemetryEntry (Float.of_Z_round 2) "2.000s" None None None;
                mkTelemetryEntry Float.nan "nans" None None None;
                mkTelemetryEntry (Float.of_Z_round 1) "1.000s" None None None]
               arrangement ->
             ~ Sorted (key_le offset_seconds) arrangement).
  { intros arrangement Hp.
    apply (nan_key_never_sorted offset_seconds arrangement
             (mkTelemetryEntry Float.nan "nans" None None None)).
    - eapply Permutation_in; [exact Hp |]. right. left. reflexivity.
    - reflexivity.
    - rewrite <- (Permutation_length Hp). cbn. lia. }
  split; [apply Hall; reflexivity | exact Hall].
Qed.

(** ** Auxiliary fields *)

(** The only value on which the coercion raises is an integer beyond the
    range of floats. *)
Lemma coerce_optional_float_Ok (value : pyval) :
  (forall z, value = VInt z -> Float.of_Z z <> None) ->
  exists r, _coerce_optional_float value = Ok r.
Proof.
  intros H. destruct value as [| b | z | f | s | l | d]; simpl; eauto.
  - specialize (H z eq_refl). destruct (Float.of_Z z); [eauto | congruence].
  - destruct (FloatParse.of_string s); eauto.
Qed.

(** C9 (the code departs from the claim).  On the integer [10**400], a
    value JSON can carry, [float(value)] raises [OverflowError], which the
    handler of [_coerce_optional_float] does not catch: the coercion
    raises, and a batch whose record has this speed is aborted. *)
Theorem coerce_optional_float_overflow :
  _coerce_optional_float (VInt (10 ^ 400)) = Raise OverflowError
  /\ normalize_entries_py
       [<[ "speed" := VInt (10 ^ 400) ]> (timestamp_record (VInt 1))]
     = Raise OverflowError.
Proof. split; vm_compute; reflexivity. Qed.

(** ** Time codes *)

Lemma srt_timestamp_clamps (f : spec_float) :
  Float.ltb Float.zero f = false ->
  srt_timestamp (NFloat f) = Ok "00:00:00,000".
Proof. intros H. unfold srt_timestamp. cbn [Number.max0]. now rewrite H. Qed.

Lemma srt_timestamp_examples :
  srt_timestamp (NInt 0) = Ok "00:00:00,000"
  /\ srt_timestamp (NFloat Float.zero) = Ok "00:00:00,000"
  /\ srt_timestamp (NFloat (Float.of_decimal 36612005 (-4))) = Ok "01:01:01,200"
  /\ srt_timestamp (NFloat (Float.of_decimal (-15) (-1))) = Ok "00:00:00,000"
  /\ srt_timestamp (NFloat (Float.of_Z_round 360000)) = Ok "100:00:00,000".
Proof. repeat split; vm_compute; reflexivity. Qed.

(** C7 (the code departs from the claim).  A fraction of a second that
    rounds to 1000 milliseconds is printed as the four digits [1000] with
    no carry into the seconds: the time code of 0.9996 s is
    [00:00:00,1000], which is not of the form [HH:MM:SS,mmm]. *)
Theorem srt_timestamp_millisecond_overflow :
  srt_timestamp (NFloat (Float.of_decimal 9996 (-4))) = Ok "00:00:00,1000"
  /\ srt_timestamp (NFloat (Float.of_decimal 599996 (-4))) = Ok "00:00:59,1000".
Proof. split; vm_compute; reflexivity. Qed.

(** ** Caption windows *)

Lemma enumerate_lookup {A : Type} (start : nat) (l : list A) (i : nat) :
  enumerate start l !! i = (fun x => ((start + i)%nat, x)) <$> (l !! i).
Proof.
  revert start i. induction l as [| x l IH]; intros start [| i];
    try reflexivity.
  - cbn. now rewrite Nat.add_0_r.
  - cbn [enumerate]. change ((enumerate (S start) l) !! i
                             = (fun x => ((start + S i)%nat, x)) <$> (l !! i)).
    rewrite (IH (S start) i). now rewrite Nat.add_succ_r.
Qed.

Lemma enumerate_length {A : Type} (start : nat) (l : list A) :
  length (enumerate start l) = length l.
Proof.
  revert start. induction l as [| x l IH]; intros start; [reflexivity |].
  cbn. now rewrite IH.
Qed.

Lemma end_time_next (entries : list TelemetryEntry) (i : nat)
    (entry : TelemetryEntry) :
  end_time entries (S i) entry = caption_end entries i entry.
Proof.
  unfold end_time, caption_end. destruct (entries !! S i) as [next |] eqn:E.
  - pose proof (lookup_lt_Some _ _ _ E) as Hlt.
    apply Nat.ltb_lt in Hlt. rewrite Hlt.
    now rewrite (nth_lookup_Some _ _ entry _ E).
  - apply lookup_ge_None in E.
    destruct (Nat.ltb_spec (S i) (length entries)); [lia | reflexivity].
Qed.

(** The block [build_srt] writes for the entry at position [i] (counted
    from 0), given the two time codes. *)
Lemma caption_block_Ok float_repr (entries : list TelemetryEntry)
    (speed_unit : string) (i : nat) (entry : TelemetryEntry)
    (block : list string) :
  caption_block float_repr entries speed_unit (S i, entry) = Ok block <->
  exists t1 t2,
    srt_timestamp (NFloat (offset_seconds entry)) = Ok t1
    /\ srt_timestamp (NFloat (caption_end entries i entry)) = Ok t2
    /\ block = [Str.of_Z (Z.of_nat (S i));
                t1 +:+ " --> " +:+ t2;
                Str.join Str.newline (caption_lines float_repr entry speed_unit);
                ""].
Proof.
  unfold caption_block, caption_window. rewrite end_time_next. split.
  - intros H. apply bind_Ok in H as (t1 & H1 & H).
    apply bind_Ok in H as (t2 & H2 & H). injection H as <-.
    now exists t1, t2.
  - intros (t1 & t2 & H1 & H2 & ->). rewrite H1. cbn. rewrite H2. reflexivity.
Qed.

(** C8.  The text [build_srt] returns is made of one block per entry, in
    order; the timing line of the block of entry [i] (counted from 0) is
    the time code of the [offset_seconds] of entry [i], the arrow, and the
    time code of the end of the caption: the [offset_seconds] of entry
    [i + 1] when there is one, else the [offset_seconds] of entry [i] plus
    the float 1.0.  [build_srt] returns whenever these time codes can all
    be rendered.  For entries with the offsets [[0, 5, 12]] the second
    caption ends at 12.0 and the last at 13.0. *)
Theorem caption_window_bounds :
  (forall (float_repr : spec_float -> string)
          (entries : list TelemetryEntry) (speed_unit text : string),
      build_srt float_repr entries speed_unit = Ok text ->
      exists blocks,
        text = Str.strip (Str.join Str.newline (concat blocks)) +:+ Str.newline
        /\ length blocks = length entries
        /\ forall (i : nat) (entry : TelemetryEntry),
             entries !! i = Some entry ->
             exists t1 t2,
               srt_timestamp (NFloat (offset_seconds entry)) = Ok t1
               /\ srt_timestamp (NFloat (caption_end entries i entry)) = Ok t2
               /\ blocks !! i
                  = Some [Str.of_Z (Z.of_nat (S i));
                          t1 +:+ " --> " +:+ t2;
                          Str.join Str.newline
                            (caption_lines float_repr entry speed_unit);
                          ""])
  /\ (forall (float_repr : spec_float -> string)
             (entries : list TelemetryEntry) (speed_unit : string),
        (forall (i : nat) (entry : TelemetryEntry),
            entries !! i = Some entry ->
            exists t1 t2,
              srt_timestamp (NFloat (offset_seconds entry)) = Ok t1
              /\ srt_timestamp (NFloat (caption_end entries i entry)) = Ok t2) ->
        exists text, build_srt float_repr entries speed_unit = Ok text)
  /\ (forall (float_repr : spec_float -> string)
             (entries : list TelemetryEntry) (speed_unit : string),
        map offset_seconds entries
        = [Float.zero; Float.of_Z_round 5; Float.of_Z_round 12] ->
        exists e0 e1 e2,
          entries = [e0; e1; e2]
          /\ caption_end entries 1 e1 = Float.of_Z_round 12
          /\ caption_end entries 2 e2 = Float.of_Z_round 13
          /\ build_srt float_repr entries speed_unit
             = Ok (Str.strip
                     (Str.join Str.newline
                        ["1"; "00:00:00,000 --> 00:00:05,000";
                         Str.join Str.newline
                           (caption_lines float_repr e0 speed_unit);
                         "";
                         "2"; "00:00:05,000 --> 00:00:12,000";
                         Str.join Str.newline
                           (caption_lines float_repr e1 speed_unit);
                         "";
                         "3"; "00:00:12,000 --> 00:00:13,000";
                         Str.join Str.newline
                           (caption_lines float_repr e2 speed_unit);
                         ""])
                   +:+ Str.newline)).
Proof.
  split; [| split].
  - intros float_repr entries speed_unit text H. unfold build_srt in H.
    apply bind_Ok in H as (blocks & Hm & H). injection H as <-.
    apply mapM_Ok in Hm. exists blocks. split; [reflexivity |]. split.
    + rewrite <- (Forall2_length _ _ _ Hm). apply enumerate_length.
    + intros i entry Hi.
      assert (He : enumerate 1 entries !! i = Some (S i, entry))
        by (rewrite enumerate_lookup, Hi; reflexivity).
      destruct (Forall2_lookup_l _ _ _ _ _ Hm He) as (block & Hb & Hblock).
      apply caption_block_Ok in Hblock as (t1 & t2 & H1 & H2 & ->).
      now exists t1, t2.
  - intros float_repr entries speed_unit Hall. unfold build_srt.
    destruct (mapM_is_Ok (caption_block float_repr entries speed_unit)
                (enumerate 1 entries)) as [blocks Hb].
    + apply Forall_lookup. intros i [idx entry] Hi.
      rewrite enumerate_lookup in Hi.
      destruct (entries !! i) as [entry' |] eqn:He; [| discriminate].
      injection Hi as <- <-.
      destruct (Hall i entry' He) as (t1 & t2 & H1 & H2).
      eexists. apply caption_block_Ok. exists t1, t2. now repeat split.
    + rewrite Hb. cbn. eauto.
  - intros float_repr [| e0 [| e1 [| e2 [| e3 entries]]]] speed_unit H;
      try discriminate.
    injection H as H0 H1 H2. exists e0, e1, e2.
    assert (E1 : caption_end [e0; e1; e2] 1 e1 = Float.of_Z_round 12)
      by (unfold caption_end; cbn; exact H2).
    assert (E2 : caption_end [e0; e1; e2] 2 e2 = Float.of_Z_round 13)
      by (unfold caption_end; cbn; rewrite H2; vm_compute; reflexivity).
    assert (E0 : caption_end [e0; e1; e2] 0 e0 = Float.of_Z_round 5)
      by (unfold caption_end; cbn; exact H1).
    split; [reflexivity |]. split; [exact E1 |]. split; [exact E2 |].
    assert (B0 : caption_block float_repr [e0; e1; e2] speed_unit (1%nat, e0)
                 = Ok ["1"; "00:00:00,000 --> 00:00:05,000";
                       Str.join Str.newline
                         (caption_lines float_repr e0 speed_unit); ""]).
    { apply caption_block_Ok. eexists _, _. rewrite H0, E0.
      split; [vm_compute; reflexivity |]. split; [vm_compute; reflexivity |].
      reflexivity. }
    assert (B1 : caption_block float_repr [e0; e1; e2] speed_unit (2%nat, e1)
                 = Ok ["2"; "00:00:05,000 --> 00:00:12,000";
                       Str.join Str.newline
                         (caption_lines float_repr e1 speed_unit); ""]).
    { apply caption_block_Ok. eexists _, _. rewrite H1, E1.
      split; [vm_compute; reflexivity |]. split; [vm_compute; reflexivity |].
      reflexivity. }
    assert (B2 : caption_block float_repr [e0; e1; e2] speed_unit (3%nat, e2)
                 = Ok ["3"; "00:00:12,000 --> 00:00:13,000";
                       Str.join Str.newline
                         (caption_lines float_repr e2 speed_unit); ""]).
    { apply caption_block_Ok. eexists _, _. rewrite H2, E2.
      split; [vm_compute; reflexivity |]. split; [vm_compute; reflexivity |].
      reflexivity. }
    unfold build_srt. cbn [enumerate mapM]. rewrite B0, B1, B2. reflexivity.
Qed.

(** The text of two captions, and of three captions at 0, 5 and 12
    seconds. *)
Lemma caption_window_bounds_witness :
  (exists (blocks : list (list string)) t1 t2,
      srt_timestamp (NFloat (Float.of_Z_round 4)) = Ok t1
      /\ srt_timestamp (NFloat (Float.of_Z_round 5)) = Ok t2
      /\ blocks !! 1%nat
         = Some ["2"; t1 +:+ " --> " +:+ t2; "Time: 4.000s"; ""])
  /\ (exists text,
        build_srt (fun _ => "")
          [mkTelemetryEntry (Float.of_decimal 15 (-1)) "1.500s" None None None;
           mkTelemetryEntry (Float.of_Z_round 4) "4.000s" None None None]
          "mph" = Ok text)
  /\ (exists e0 e1 e2 text,
        [mkTelemetryEntry Float.zero "0.000s" None None None;
         mkTelemetryEntry (Float.of_Z_round 5) "5.000s" None None None;
         mkTelemetryEntry (Float.of_Z_round 12) "12.000s" None None None]
        = [e0; e1; e2]
        /\ build_srt (fun _ => "") [e0; e1; e2] "mph" = Ok text).
Proof.
  destruct caption_window_bounds as (Hwin & Hret & Hex).
  split; [| split].
  - destruct (Hwin (fun _ => "")
                [mkTelemetryEntry (Float.of_decimal 15 (-1)) "1.500s" None None None;
                 mkTelemetryEntry (Float.of_Z_round 4) "4.000s" None None None]
                "mph" _ ltac:(vm_compute; reflexivity))
      as (blocks & _ & _ & Hblock).
    destruct (Hblock 1%nat
                (mkTelemetryEntry (Float.of_Z_round 4) "4.000s" None None None)
                eq_refl) as (t1 & t2 & H1 & H2 & Hb).
    exists blocks, t1, t2. split; [exact H1 |]. split; [| exact Hb].
    rewrite <- H2. vm_compute. reflexivity.
  - apply Hret. intros [| [| i]] entry Hi; try discriminate Hi;
      injection Hi as <-; eexists _, _; split; vm_compute; reflexivity.
  - destruct (Hex (fun _ => "")
                [mkTelemetryEntry Float.zero "0.000s" None None None;
                 mkTelemetryEntry (Float.of_Z_round 5) "5.000s" None None None;
                 mkTelemetryEntry (Float.of_Z_round 12) "12.000s" None None None]
                "mph" eq_refl) as (e0 & e1 & e2 & He & _ & _ & Hb).
    exists e0, e1, e2. eexists. split; [exact He |].
    rewrite <- He. exact Hb.
Defined.

(** * Further properties of the program *)

(** ** parse_timestamp and the parsing loop *)

Lemma parse_entries_snd fromisoformat strptime
    (batch : list (gmap string pyval))
    (parsed : list (timestamp * gmap string pyval)) :
  parse_entries fromisoformat strptime batch = Ok parsed ->
  map snd parsed = batch.
Proof.
  revert parsed. induction batch as [| r batch IH]; intros parsed H.
  - injection H as <-. reflexivity.
  - cbn [parse_entries] in H.
    destruct (r !! "timestamp") as [v |]; [| discriminate].
    apply bind_Ok in H as (ts & _ & H).
    apply bind_Ok in H as (rest & Hrest & H). injection H as <-.
    cbn. now rewrite (IH _ Hrest).
Qed.

(** The errors of [parse_timestamp], case by case. *)
Lemma parse_timestamp_Raise fromisoformat strptime (value : pyval) (e : exn) :
  parse_timestamp fromisoformat strptime value = Raise e ->
  (exists z, value = VInt z /\ Float.of_Z z = None /\ e = OverflowError)
  \/ (exists s, value = VStr s
                /\ FloatParse.of_string (Str.strip s) = None
                /\ fromisoformat
                     (if Str.endswith (Str.strip s) "Z"
                      then Str.drop_last (Str.strip s) +:+ "+00:00"
                      else Str.strip s) = None
                /\ strptime (Str.strip s) "%H:%M:%S.%f" = None
                /\ strptime (Str.strip s) "%H:%M:%S" = None
                /\ e = UnsupportedTimestampFormat (Str.strip s))
  \/ ((value = VNone \/ (exists l, value = VList l)
       \/ (exists d, value = VDict d))
      /\ e = AttributeError).
Proof.
  intros H. destruct value as [| b | z | f | s | l | d].
  - right. right. injection H as <-. split; [now left | reflexivity].
  - discriminate.
  - left. exists z. cbn in H. destruct (Float.of_Z z); [discriminate |].
    injection H as <-. now repeat split.
  - discriminate.
  - right. left. exists s. rewrite parse_timestamp_str in H. cbn zeta in H.
    destruct (FloatParse.of_string (Str.strip s)); [discriminate |].
    destruct (fromisoformat _); [discriminate |].
    destruct (strptime _ "%H:%M:%S.%f"); [discriminate |].
    destruct (strptime _ "%H:%M:%S"); [discriminate |].
    injection H as <-. now repeat split.
  - right. right. injection H as <-. split; [right; left; eauto | reflexivity].
  - right. right. injection H as <-. split; [right; right; eauto | reflexivity].
Qed.

Lemma coerce_optional_float_Raise (value : pyval) (e : exn) :
  _coerce_optional_float value = Raise e -> e = OverflowError.
Proof.
  destruct value as [| b | z | f | s | l | d]; cbn; try discriminate.
  - destruct (Float.of_Z z); [discriminate |]. intros H. now injection H.
  - destruct (FloatParse.of_string s); discriminate.
Qed.

(** X1.  [parse_entries], the first loop of [normalize_entries], returns
    exactly when every record has a [timestamp] key whose value
    [parse_timestamp] accepts; the list it returns pairs every record,
    unchanged and in input order, with the parse of its own timestamp. *)
Theorem parse_entries_pairs_records :
  forall (fromisoformat : string -> option Datetime.t)
         (strptime : string -> string -> option Datetime.t)
         (batch : list (gmap string pyval))
         (parsed : list (timestamp * gmap string pyval)),
    parse_entries fromisoformat strptime batch = Ok parsed
    <-> (map snd parsed = batch
         /\ Forall (fun p => exists v,
                      snd p !! "timestamp" = Some v
                      /\ parse_timestamp fromisoformat strptime v = Ok (fst p))
                   parsed).
Proof.
  intros fromisoformat strptime batch. induction batch as [| r batch IH];
    intros parsed; split.
  - intros H. injection H as <-. split; [reflexivity | constructor].
  - intros [Hm _]. destruct parsed; [reflexivity | discriminate].
  - cbn [parse_entries]. intros H.
    destruct (r !! "timestamp") as [v |] eqn:Hv; [| discriminate].
    apply bind_Ok in H as (ts & Hts & H).
    apply bind_Ok in H as (rest & Hrest & H). injection H as <-.
    apply IH in Hrest as [Hm Hall]. split; [cbn; now rewrite Hm |].
    constructor; [| exact Hall]. exists v. now split.
  - intros [Hm Hall]. destruct parsed as [| [ts data] parsed]; [discriminate |].
    injection Hm as -> Hm. inversion Hall as [| ? ? (v & Hv & Hts) Hall']; subst.
    cbn [parse_entries]. cbn [fst snd] in *. rewrite Hv, Hts. cbn.
    assert (Hrest : parse_entries fromisoformat strptime (map snd parsed)
                    = Ok parsed) by (apply IH; now split).
    now rewrite Hrest.
Qed.

(** A batch of a number, a numeric string and a clock string. *)
Lemma parse_entries_pairs_records_witness :
  parse_entries DatetimeParse.fromisoformat DatetimeParse.strptime
    [timestamp_record (VInt 3); timestamp_record (VStr " 4.5 ")]
  = Ok [(Numeric (Float.of_Z_round 3), timestamp_record (VInt 3));
        (Numeric (Float.of_decimal 45 (-1)), timestamp_record (VStr " 4.5 "))]
  /\ map snd [(Numeric (Float.of_Z_round 3), timestamp_record (VInt 3));
              (Numeric (Float.of_decimal 45 (-1)),
               timestamp_record (VStr " 4.5 "))]
     = [timestamp_record (VInt 3); timestamp_record (VStr " 4.5 ")].
Proof.
  split.
  - apply (proj2 (parse_entries_pairs_records
                    DatetimeParse.fromisoformat DatetimeParse.strptime _ _)).
    split; [reflexivity |].
    repeat constructor.
    + exists (VInt 3). split; vm_compute; reflexivity.
    + exists (VStr " 4.5 "). split; vm_compute; reflexivity.
  - apply (proj1 (parse_entries_pairs_records
                    DatetimeParse.fromisoformat DatetimeParse.strptime
                    [timestamp_record (VInt 3); timestamp_record (VStr " 4.5 ")]
                    _)).
    vm_compute. reflexivity.
Defined.

(** X2.  [normalize_entries] fails fast: when the records before some
    record all have timestamps that parse, and that record either lacks
    the [timestamp] key or has a timestamp on which [parse_timestamp]
    raises, the batch fails with the error of that record, whatever the
    records after it are. *)
Theorem normalize_entries_first_error :
  forall (fromisoformat : string -> option Datetime.t)
         (strptime : string -> string -> option Datetime.t)
         (before after : list (gmap string pyval)) (entry : gmap string pyval)
         (e : exn),
    Forall (fun r => exists v ts,
              r !! "timestamp" = Some v
              /\ parse_timestamp fromisoformat strptime v = Ok ts) before ->
    (entry !! "timestamp" = None /\ e = MissingTimestampField)
    \/ (exists v, entry !! "timestamp" = Some v
                  /\ parse_timestamp fromisoformat strptime v = Raise e) ->
    normalize_entries fromisoformat strptime (before ++ entry :: after)
    = Raise e.
Proof.
  intros fromisoformat strptime before after entry e Hb He.
  unfold normalize_entries.
  assert (H : parse_entries fromisoformat strptime (before ++ entry :: after)
              = Raise e).
  { induction Hb as [| r before (v & ts & Hv & Hts) _ IH]; cbn.
    - destruct He as [[-> ->] | (v & -> & ->)]; reflexivity.
    - rewrite Hv, Hts. cbn. now rewrite IH. }
  now rewrite H.
Qed.

(** A batch whose second record has an integer timestamp beyond the range
    of floats and whose third has no timestamp. *)
Lemma normalize_entries_first_error_witness :
  normalize_entries_py
    ([timestamp_record (VStr "12:00:00")]
     ++ timestamp_record (VInt (10 ^ 400)) :: [∅])
  = Raise OverflowError.
Proof.
  apply (normalize_entries_first_error
           DatetimeParse.fromisoformat DatetimeParse.strptime
           [timestamp_record (VStr "12:00:00")] [∅]
           (timestamp_record (VInt (10 ^ 400))) OverflowError).
  - repeat constructor.
    exists (VStr "12:00:00"), (Absolute (Datetime.mk 1900 1 1 12 0 0 0 None)).
    split; vm_compute; reflexivity.
  - right. exists (VInt (10 ^ 400)). split; vm_compute; reflexivity.
Defined.

(** X3.  [parse_timestamp] raises in three cases only, and exactly in
    them: on an integer beyond the range of floats ([OverflowError]); on
    a string that no rule accepts, that is, whose trimmed text [float]
    rejects, whose ISO-8601 candidate (the text with a trailing [Z]
    rewritten to [+00:00]) [fromisoformat] rejects and which both
    [strptime] patterns reject ([UnsupportedTimestampFormat] with the
    trimmed text); and on a value that is neither a number nor a string
    ([AttributeError]).  A float or a [bool] never raises. *)
Theorem parse_timestamp_errors :
  forall (fromisoformat : string -> option Datetime.t)
         (strptime : string -> string -> option Datetime.t)
         (value : pyval) (e : exn),
    parse_timestamp fromisoformat strptime value = Raise e
    <-> ((exists z, value = VInt z /\ Float.of_Z z = None
                    /\ e = OverflowError)
         \/ (exists s c, value = VStr s
                       /\ FloatParse.of_string (Str.strip s) = None
                       /\ utc_designator_rewritten (Str.strip s) c
                       /\ fromisoformat c = None
                       /\ strptime (Str.strip s) "%H:%M:%S.%f" = None
                       /\ strptime (Str.strip s) "%H:%M:%S" = None
                       /\ e = UnsupportedTimestampFormat (Str.strip s))
         \/ ((value = VNone \/ (exists l, value = VList l)
              \/ (exists d, value = VDict d))
             /\ e = AttributeError)).
Proof.
  intros fromisoformat strptime value e. split.
  - intros H.
    destruct (parse_timestamp_Raise _ _ _ _ H)
      as [Hint | [(s & -> & Hf & Hi & H1 & H2 & ->) | Hother]].
    + now left.
    + right. left. eexists s, _. split; [reflexivity |].
      split; [exact Hf |].
      split; [apply utc_designator_rewritten_iso_candidate |].
      now repeat split.
    + now right; right.
  - intros [(z & -> & Hz & ->) | [(s & c & -> & Hf & Hr & Hi & H1 & H2 & ->)
                                  | [Hv ->]]].
    + cbn. now rewrite Hz.
    + rewrite parse_timestamp_str. cbn zeta. rewrite Hf.
      rewrite <- (utc_designator_rewritten_fun _ _ _ Hr
                    (utc_designator_rewritten_iso_candidate (Str.strip s))).
      now rewrite Hi, H1, H2.
    + destruct Hv as [-> | [[l ->] | [d ->]]]; reflexivity.
Qed.

(** A string that every rule rejects, and an integer beyond the range of
    floats. *)
Lemma parse_timestamp_errors_witness :
  parse_timestamp_py (VStr " soonZ ")
  = Raise (UnsupportedTimestampFormat "soonZ")
  /\ ((exists z, VInt (10 ^ 400) = VInt z /\ Float.of_Z z = None
                 /\ OverflowError = OverflowError)
      \/ (exists s c, VInt (10 ^ 400) = VStr s
                    /\ FloatParse.of_string (Str.strip s) = None
                    /\ utc_designator_rewritten (Str.strip s) c
                    /\ DatetimeParse.fromisoformat c = None
                    /\ DatetimeParse.strptime (Str.strip s) "%H:%M:%S.%f" = None
                    /\ DatetimeParse.strptime (Str.strip s) "%H:%M:%S" = None
                    /\ OverflowError = UnsupportedTimestampFormat (Str.strip s))
      \/ ((VInt (10 ^ 400) = VNone \/ (exists l, VInt (10 ^ 400) = VList l)
           \/ (exists d, VInt (10 ^ 400) = VDict d))
          /\ OverflowError = AttributeError)).
Proof.
  split.
  - apply (proj2 (parse_timestamp_errors
                    DatetimeParse.fromisoformat DatetimeParse.strptime
                    (VStr " soonZ ") (UnsupportedTimestampFormat "soonZ"))).
    right. left. exists " soonZ ", "soon+00:00".
    split; [reflexivity |]. split; [vm_compute; reflexivity |].
    split; [left; exists "soon"; split; reflexivity |].
    repeat split; vm_compute; reflexivity.
  - apply (proj1 (parse_timestamp_errors
                    DatetimeParse.fromisoformat DatetimeParse.strptime
                    (VInt (10 ^ 400)) OverflowError)).
    vm_compute. reflexivity.
Defined.

(** ** Auxiliary fields *)

(** X4.  [_coerce_optional_float] raises exactly on an integer beyond the
    range of floats, with [OverflowError]; on every other value it
    returns: absent for [None], for a list or a dict and for a string that
    [float] rejects, the float for a number or a numeric string. *)
Theorem coerce_optional_float_raises_iff :
  forall (value : pyval) (e : exn),
    _coerce_optional_float value = Raise e
    <-> (e = OverflowError
         /\ exists z, value = VInt z /\ Float.of_Z z = None).
Proof.
  intros value e. split.
  - destruct value as [| b | z | f | s | l | d]; cbn; try discriminate.
    + destruct (Float.of_Z z) eqn:E; [discriminate |].
      intros H. injection H as <-. eauto.
    + destruct (FloatParse.of_string s); discriminate.
  - intros [-> (z & -> & Hz)]. cbn. now rewrite Hz.
Qed.

(** The values on which the coercion yields absent. *)
Lemma coerce_optional_float_absent (value : pyval) :
  _coerce_optional_float value = Ok None
  <-> (value = VNone \/ (exists l, value = VList l)
       \/ (exists d, value = VDict d)
       \/ (exists s, value = VStr s /\ FloatParse.of_string s = None)).
Proof.
  split.
  - destruct value as [| b | z | f | s | l | d]; cbn; intros H.
    + now left.
    + discriminate.
    + destruct (Float.of_Z z); discriminate.
    + discriminate.
    + destruct (FloatParse.of_string s) eqn:E; [discriminate |].
      right. right. right. eauto.
    + right. left. eauto.
    + right. right. left. eauto.
  - intros [-> | [[l ->] | [[d ->] | (s & -> & Hs)]]]; cbn; try reflexivity.
    now rewrite Hs.
Qed.

Lemma coerce_optional_float_raises_iff_witness :
  _coerce_optional_float (VInt (2 ^ 1024)) = Raise OverflowError.
Proof.
  apply (proj2 (coerce_optional_float_raises_iff (VInt (2 ^ 1024)) OverflowError)).
  split; [reflexivity |]. exists (2 ^ 1024). split; vm_compute; reflexivity.
Defined.

(** ** normalize_entries: from records to entries *)

Lemma mapM_Raise {A B : Type} (f : A -> result B) (l : list A) (e : exn) :
  mapM f l = Raise e -> exists x, In x l /\ f x = Raise e.
Proof.
  induction l as [| x l IH]; [discriminate |]. cbn [mapM].
  destruct (f x) as [y |] eqn:Hx; cbn.
  - destruct (mapM f l) as [ys |] eqn:Hl; cbn; [discriminate |].
    intros H. injection H as <-. destruct (IH eq_refl) as (x' & Hin & Hx').
    exists x'. split; [now right | exact Hx'].
  - intros H. injection H as <-. exists x. split; [now left | exact Hx].
Qed.

Lemma make_entry_fields (offset : spec_float) (display : string)
    (data : gmap string pyval) (e : TelemetryEntry) :
  make_entry offset display data = Ok e -> carries_fields_of data e.
Proof.
  unfold make_entry, carries_fields_of. intros H.
  apply bind_Ok in H as (sp & Hs & H). apply bind_Ok in H as (la & Hla & H).
  apply bind_Ok in H as (lo & Hlo & H). injection H as <-. now repeat split.
Qed.

Lemma make_entry_Raise (offset : spec_float) (display : string)
    (data : gmap string pyval) (e : exn) :
  make_entry offset display data = Raise e -> e = OverflowError.
Proof.
  unfold make_entry. intros H.
  destruct (_coerce_optional_float (get data "speed")) as [sp |] eqn:E1; cbn in H.
  - destruct (_coerce_optional_float (get data "latitude")) as [la |] eqn:E2;
      cbn in H.
    + destruct (_coerce_optional_float (get data "longitude")) as [lo |] eqn:E3;
        cbn in H; [discriminate |].
      injection H as <-. now apply coerce_optional_float_Raise in E3.
    + injection H as <-. now apply coerce_optional_float_Raise in E2.
  - injection H as <-. now apply coerce_optional_float_Raise in E1.
Qed.

Lemma all_datetimes_snd (parsed : list (timestamp * gmap string pyval))
    (entries : list (Datetime.t * gmap string pyval)) :
  all_datetimes (map datetime_or_none parsed) = Some entries ->
  map snd entries = map snd parsed.
Proof.
  revert entries. induction parsed as [| [ts data] parsed IH]; intros entries H.
  - injection H as <-. reflexivity.
  - destruct ts as [x | d]; cbn in H; [discriminate |].
    destruct (all_datetimes (map datetime_or_none parsed)) as [r |];
      [| discriminate].
    injection H as <-. cbn. now rewrite (IH r eq_refl).
Qed.

Lemma Forall2_map_snd {A B C : Type} (R : B -> C -> Prop)
    (l : list (A * B)) (k : list C) :
  Forall2 (fun p c => R (snd p) c) l k -> Forall2 R (map snd l) k.
Proof. induction 1; constructor; assumption. Qed.

Lemma build_offsets_fields (parsed : list (timestamp * gmap string pyval))
    (offsets : list TelemetryEntry) :
  build_offsets parsed = Ok offsets ->
  Forall2 carries_fields_of (map snd parsed) offsets.
Proof.
  unfold build_offsets.
  destruct (existsb (fun p => is_datetime (fst p)) parsed).
  - destruct (all_datetimes (map datetime_or_none parsed)) as [entries |] eqn:E;
      [| discriminate].
    intros H. apply bind_Ok in H as (start & _ & H).
    rewrite <- (all_datetimes_snd _ _ E). apply Forall2_map_snd.
    apply mapM_Ok in H. eapply Forall2_impl; [exact H |]. cbv beta.
    intros [d data] e He. unfold absolute_entry in He.
    apply bind_Ok in He as (delta & _ & He). eapply make_entry_fields, He.
  - intros H. apply Forall2_map_snd. apply mapM_Ok in H.
    eapply Forall2_impl; [exact H |]. cbv beta.
    intros [ts data] e He. unfold numeric_entry in He. cbn [fst snd] in *.
    destruct ts; [| discriminate]. eapply make_entry_fields, He.
Qed.

(** X5.  When [normalize_entries] accepts a batch it returns one entry
    per record: the returned list is a rearrangement of a list that, in
    input order, holds for every record an entry with that record's
    [speed], [latitude] and [longitude], each coerced on its own; so the
    result has as many entries as the batch has records. *)
Theorem normalize_entries_entry_per_record :
  forall (fromisoformat : string -> option Datetime.t)
         (strptime : string -> string -> option Datetime.t)
         (batch : list (gmap string pyval)) (out : list TelemetryEntry),
    normalize_entries fromisoformat strptime batch = Ok out ->
    (exists offsets,
        Permutation offsets out /\ Forall2 carries_fields_of batch offsets)
    /\ length out = length batch.
Proof.
  intros fromisoformat strptime batch out H. unfold normalize_entries in H.
  apply bind_Ok in H as (parsed & Hp & H).
  apply bind_Ok in H as (offsets & Ho & H). injection H as <-.
  apply parse_entries_snd in Hp as Hm.
  apply build_offsets_fields in Ho. rewrite Hm in Ho.
  split.
  - exists offsets. split; [apply sort_by_key_perm | exact Ho].
  - rewrite <- (Permutation_length (sort_by_key_perm offset_seconds offsets)).
    symmetry. eapply Forall2_length, Ho.
Qed.

(** Two records given out of order, the first with a speed and a
    latitude that is not a number. *)
Lemma normalize_entries_entry_per_record_witness :
  exists out,
    normalize_entries_py
      [<[ "speed" := VStr "88.5" ]>
         (<[ "latitude" := VStr "north" ]> (timestamp_record (VInt 9)));
       timestamp_record (VInt 2)] = Ok out
    /\ (exists offsets,
           Permutation offsets out
           /\ Forall2 carries_fields_of
                [<[ "speed" := VStr "88.5" ]>
                   (<[ "latitude" := VStr "north" ]> (timestamp_record (VInt 9)));
                 timestamp_record (VInt 2)] offsets)
    /\ length out = 2%nat.
Proof.
  eexists. split; [vm_compute; reflexivity |].
  apply (normalize_entries_entry_per_record
           DatetimeParse.fromisoformat DatetimeParse.strptime
           [<[ "speed" := VStr "88.5" ]>
              (<[ "latitude" := VStr "north" ]> (timestamp_record (VInt 9)));
            timestamp_record (VInt 2)]).
  vm_compute. reflexivity.
Defined.

(** ** normalize_entries: the errors it can raise *)

Lemma parse_entries_Raise fromisoformat strptime
    (batch : list (gmap string pyval)) (e : exn) :
  parse_entries fromisoformat strptime batch = Raise e ->
  e = MissingTimestampField
  \/ exists v, parse_timestamp fromisoformat strptime v = Raise e.
Proof.
  induction batch as [| r batch IH]; [discriminate |]. cbn [parse_entries].
  destruct (r !! "timestamp") as [v |].
  - destruct (parse_timestamp fromisoformat strptime v) as [ts |] eqn:Hv; cbn.
    + destruct (parse_entries fromisoformat strptime batch) as [rest |]; cbn;
        [discriminate |].
      intros H. injection H as <-. now apply IH.
    + intros H. injection H as <-. right. eauto.
  - intros H. injection H as <-. now left.
Qed.

Lemma all_datetimes_length (l : list (option Datetime.t * gmap string pyval))
    (entries : list (Datetime.t * gmap string pyval)) :
  all_datetimes l = Some entries -> length entries = length l.
Proof.
  revert entries. induction l as [| [[d |] data] l IH]; intros entries H;
    cbn in H; try discriminate.
  - injection H as <-. reflexivity.
  - destruct (all_datetimes l) as [r |]; [| discriminate].
    injection H as <-. cbn. now rewrite (IH r eq_refl).
Qed.

Lemma build_offsets_Raise (parsed : list (timestamp * gmap string pyval))
    (e : exn) :
  build_offsets parsed = Raise e ->
  e = MixedTimestampFormats \/ e = TypeError \/ e = OverflowError.
Proof.
  unfold build_offsets.
  destruct (existsb (fun p => is_datetime (fst p)) parsed) eqn:Hd.
  - destruct (all_datetimes (map datetime_or_none parsed)) as [entries |] eqn:E.
    + destruct (Datetime.min (map fst entries)) as [start |] eqn:Hmin; cbn.
      * intros H. apply mapM_Raise in H as ([d data] & _ & H).
        unfold absolute_entry in H. cbn [fst snd] in H.
        destruct (Datetime.sub d start) as [delta |] eqn:Hs; cbn in H.
        -- right. right. eapply make_entry_Raise, H.
        -- injection H as <-. right. left.
           unfold Datetime.sub in Hs.
           destruct (Datetime.tzinfo d), (Datetime.tzinfo start);
             try discriminate; now injection Hs.
      * intros H. injection H as <-. right. left.
        destruct entries as [| [d data] entries].
        -- apply all_datetimes_length in E. rewrite length_map in E.
           destruct parsed; [discriminate | discriminate].
        -- cbn in Hmin. eapply min_from_raises, Hmin.
    + intros H. injection H as <-. now left.
  - intros H. apply mapM_Raise in H as ([ts data] & _ & H).
    unfold numeric_entry in H. cbn [fst snd] in H. destruct ts.
    + right. right. eapply make_entry_Raise, H.
    + injection H as <-. right. now left.
Qed.

(** X6.  Every error [normalize_entries] raises is one of
    [MissingTimestampField], [UnsupportedTimestampFormat],
    [MixedTimestampFormats], [TypeError], [OverflowError] and
    [AttributeError]; in particular [min] is never applied to an empty
    sequence and no other [ValueError] escapes. *)
Theorem normalize_entries_errors :
  forall (fromisoformat : string -> option Datetime.t)
         (strptime : string -> string -> option Datetime.t)
         (batch : list (gmap string pyval)) (e : exn),
    normalize_entries fromisoformat strptime batch = Raise e ->
    normalization_error e.
Proof.
  intros fromisoformat strptime batch e H. unfold normalize_entries in H.
  unfold normalization_error.
  destruct (parse_entries fromisoformat strptime batch) as [parsed |] eqn:Hp;
    cbn in H.
  - destruct (build_offsets parsed) as [offsets |] eqn:Ho; cbn in H;
      [discriminate |].
    injection H as <-.
    destruct (build_offsets_Raise _ _ Ho) as [-> | [-> | ->]]; auto 10.
  - injection H as <-.
    destruct (parse_entries_Raise _ _ _ _ Hp) as [-> | [v Hv]]; [now left |].
    destruct (parse_timestamp_Raise _ _ _ _ Hv)
      as [(z & _ & _ & ->) | [(s & _ & _ & _ & _ & _ & ->) | [_ ->]]];
      eauto 10.
Qed.

(** The error of a batch that mixes an aware and a naive instant. *)
Lemma normalize_entries_errors_witness : normalization_error TypeError.
Proof.
  apply (normalize_entries_errors
           DatetimeParse.fromisoformat DatetimeParse.strptime
           [timestamp_record (VStr "2024-03-09T08:00:00+02:00");
            timestamp_record (VStr "08:00:05")]).
  vm_compute. reflexivity.
Defined.

(** ** Rounding never yields NaN and keeps the sign *)

Lemma shr_1_nonneg (mrs : shr_record) :
  0 <= shr_m mrs -> 0 <= shr_m (shr_1 mrs).
Proof.
  destruct mrs as [m r s]. destruct m as [| p | p]; cbn; try lia;
    destruct p; cbn; lia.
Qed.

Lemma iter_pos_shr_1_nonneg (p : positive) (mrs : shr_record) :
  0 <= shr_m mrs -> 0 <= shr_m (SpecFloat.iter_pos shr_1 p mrs).
Proof.
  revert mrs. induction p as [p IH | p IH |]; intros mrs H; cbn.
  - apply IH, IH, shr_1_nonneg, H.
  - apply IH, IH, H.
  - apply shr_1_nonneg, H.
Qed.

Lemma shr_fexp_nonneg (m e : Z) (l : location) :
  0 <= m -> 0 <= shr_m (fst (shr_fexp Float.prec Float.emax m e l)).
Proof.
  intros H. unfold shr_fexp, shr.
  assert (H0 : 0 <= shr_m (shr_record_of_loc m l))
    by (destruct l as [| []]; exact H).
  destruct (fexp Float.prec Float.emax (Zdigits2 m + e) - e); cbn [fst];
    try exact H0.
  apply iter_pos_shr_1_nonneg, H0.
Qed.

Lemma round_nearest_even_nonneg (m : Z) (l : location) :
  0 <= m -> 0 <= round_nearest_even m l.
Proof.
  intros H. destruct l as [| []]; cbn; try lia. destruct (Z.even m); lia.
Qed.

Lemma binary_round_aux_sign (sx : bool) (mx ex : Z) (lx : location) :
  0 <= mx ->
  Float.is_nan (binary_round_aux Float.prec Float.emax sx mx ex lx) = false
  /\ Float.sign (binary_round_aux Float.prec Float.emax sx mx ex lx) = sx.
Proof.
  intros H. unfold binary_round_aux.
  pose proof (shr_fexp_nonneg mx ex lx H) as H1.
  destruct (shr_fexp Float.prec Float.emax mx ex lx) as [mrs' e'].
  cbn [fst] in H1.
  pose proof (shr_fexp_nonneg
                (round_nearest_even (shr_m mrs') (loc_of_shr_record mrs'))
                e' loc_Exact (round_nearest_even_nonneg _ _ H1)) as H2.
  destruct (shr_fexp Float.prec Float.emax
              (round_nearest_even (shr_m mrs') (loc_of_shr_record mrs'))
              e' loc_Exact) as [mrs'' e''].
  cbn [fst] in H2. destruct (shr_m mrs'') as [| p | p]; [now split | | lia].
  destruct (e'' <=? Float.emax - Float.prec); now split.
Qed.

Lemma binary_normalize_sign (m e : Z) :
  0 <= m ->
  Float.is_nan (binary_normalize Float.prec Float.emax m e false) = false
  /\ Float.sign (binary_normalize Float.prec Float.emax m e false) = false.
Proof.
  intros H. destruct m as [| p | p]; [now split | | lia].
  unfold binary_normalize, binary_round.
  destruct (shl_align p e _) as [mz ez]. now apply binary_round_aux_sign.
Qed.

Lemma of_ratio_nonneg (n d : Z) :
  0 <= n -> 0 < d ->
  Float.is_nan (Float.of_ratio n d) = false
  /\ Float.sign (Float.of_ratio n d) = false.
Proof.
  intros Hn Hd. unfold Float.of_ratio.
  destruct (Z.leb_spec d 0); [lia |].
  destruct n as [| p | p]; [now split | | lia].
  apply binary_normalize_sign.
  assert (0 <= Z.shiftl (Z.abs (Z.pos p)) (1100 + Z.log2 d) / d).
  { apply Z.div_pos; [| exact Hd]. apply Z.shiftl_nonneg. lia. }
  destruct (_ =? 0); lia.
Qed.

Lemma nonneg_leb_zero (x : spec_float) :
  Float.is_nan x = false -> Float.sign x = false ->
  Float.leb Float.zero x = true.
Proof. destruct x as [s | s | | s m e]; cbn; intros; subst; now try discriminate. Qed.

Lemma leb_zero_not_nan (x : spec_float) :
  Float.leb Float.zero x = true -> Float.is_nan x = false.
Proof. destruct x; [reflexivity .. | discriminate | reflexivity]. Qed.

(** ** normalize_entries: offsets of absolute timestamps *)

Lemma min_Ok_uniform (ds : list Datetime.t) (start : Datetime.t) :
  Datetime.min ds = Ok start -> uniform_awareness ds.
Proof.
  destruct ds as [| d rest]; [discriminate |]. cbn [Datetime.min]. intros H.
  apply min_from_Ok in H. unfold uniform_awareness.
  destruct (Datetime.aware d) eqn:Hd; [left | right];
    (constructor; [exact Hd |]);
    (eapply List.Forall_impl; [| exact H]); cbv beta; congruence.
Qed.

Lemma sorted_nonneg_head (out : list TelemetryEntry) (z : TelemetryEntry) :
  Sorted (key_le offset_seconds) out ->
  Forall (fun e => Float.is_nan (offset_seconds e) = false
                   /\ Float.sign (offset_seconds e) = false) out ->
  In z out -> offset_seconds z = Float.zero ->
  exists first rest, out = first :: rest /\ offset_seconds first = Float.zero.
Proof.
  intros Hs Hall Hin Hz. destruct out as [| first rest]; [destruct Hin |].
  exists first, rest. split; [reflexivity |].
  inversion Hall as [| ? ? [Hnan Hsign] _]; subst.
  destruct Hin as [<- | Hin]; [exact Hz |].
  pose proof (sorted_head_least offset_seconds first rest Hs z Hin) as Hle.
  unfold key_le in Hle. rewrite Hz in Hle.
  destruct (offset_seconds first) as [s | s | | s m e]; cbn in *;
    subst; try discriminate; reflexivity.
Qed.

(** X7.  In a batch whose timestamps all parse to [Absolute] instants and
    that [normalize_entries] accepts, every [offset_seconds] is a
    non-negative number (never NaN), the returned list is sorted
    non-decreasing by [offset_seconds] with no further condition, and its
    first entry has the offset 0.0. *)
Theorem absolute_mode_offsets_start_at_zero :
  forall (fromisoformat : string -> option Datetime.t)
         (strptime : string -> string -> option Datetime.t)
         (batch : list (gmap string pyval))
         (parsed : list (timestamp * gmap string pyval))
         (instants : list Datetime.t) (out : list TelemetryEntry),
    parse_entries fromisoformat strptime batch = Ok parsed ->
    map fst parsed = map Absolute instants ->
    instants <> [] ->
    normalize_entries fromisoformat strptime batch = Ok out ->
    Forall (fun e => Float.leb Float.zero (offset_seconds e) = true) out
    /\ Sorted (key_le offset_seconds) out
    /\ exists first rest,
         out = first :: rest /\ offset_seconds first = Float.zero.
Proof.
  intros fromisoformat strptime batch parsed instants out Hp Hv Hne H.
  unfold normalize_entries in H. rewrite Hp in H. cbn in H.
  apply bind_Ok in H as (offsets & Ho & H). injection H as <-.
  rewrite (build_offsets_absolute parsed instants Hv Hne) in Ho.
  apply bind_Ok in Ho as (start & Hmin & Ho).
  pose proof (min_Ok_uniform _ _ Hmin) as Hu.
  destruct (min_uniform instants Hne Hu) as (start' & Hmin' & Hin & Haw & Hle).
  rewrite Hmin in Hmin'. injection Hmin' as <-.
  assert (Hlen : length instants = length (map snd parsed)).
  { rewrite length_map, <- (length_map fst parsed), Hv. now rewrite length_map. }
  assert (Hspec : Forall2 (fun d e =>
                     offset_seconds e
                     = Datetime.total_seconds (instant d - instant start)
                     /\ display_timestamp e = Datetime.isoformat d)
                   instants offsets).
  { rewrite <- (map_fst_zip instants (map snd parsed) Hlen).
    apply absolute_entries_spec; [| exact Ho].
    apply (Forall_fst_zip (fun d => Datetime.aware d = Datetime.aware start)),
      Haw. }
  assert (Hnn : Forall (fun e => Float.is_nan (offset_seconds e) = false
                                 /\ Float.sign (offset_seconds e) = false)
                       offsets).
  { clear -Hspec Hle. induction Hspec as [| d e ds es [He _] _ IH];
      [constructor |].
    inversion Hle as [| ? ? Hd Hle']; subst. constructor; [| now apply IH].
    rewrite He. apply of_ratio_nonneg; lia. }
  assert (Hz : exists z, In z offsets /\ offset_seconds z = Float.zero).
  { clear -Hspec Hin. induction Hspec as [| d e ds es [He _] _ IH];
      [destruct Hin |].
    destruct Hin as [-> | Hin].
    - exists e. split; [now left |]. rewrite He, Z.sub_diag. reflexivity.
    - destruct (IH Hin) as (z & Hz & Hz0). exists z. split; [now right | exact Hz0]. }
  pose proof (sort_by_key_perm offset_seconds offsets) as Hperm.
  assert (Hnn' : Forall (fun e => Float.is_nan (offset_seconds e) = false
                                  /\ Float.sign (offset_seconds e) = false)
                        (sort_by_key offset_seconds offsets))
    by (eapply Permutation_Forall; [exact Hperm | exact Hnn]).
  assert (Hs : Sorted (key_le offset_seconds) (sort_by_key offset_seconds offsets)).
  { apply sort_by_key_sorted. eapply List.Forall_impl; [| exact Hnn].
    cbv beta. now intros e [He _]. }
  split; [| split; [exact Hs |]].
  - eapply List.Forall_impl; [| exact Hnn']. cbv beta.
    intros e [He1 He2]. now apply nonneg_leb_zero.
  - destruct Hz as (z & Hz & Hz0).
    apply (sorted_nonneg_head _ z Hs Hnn'); [| exact Hz0].
    eapply Permutation_in; [exact Hperm | exact Hz].
Qed.

(** Three aware instants with different UTC offsets, given out of
    order. *)
Lemma absolute_mode_offsets_start_at_zero_witness :
  exists out,
    normalize_entries_py
      [timestamp_record (VStr "2024-03-09T10:00:00+02:00");
       timestamp_record (VStr "2024-03-09T07:59:59.500Z");
       timestamp_record (VStr "2024-03-09T03:00:01-05:00")] = Ok out
    /\ Forall (fun e => Float.leb Float.zero (offset_seconds e) = true) out
    /\ Sorted (key_le offset_seconds) out
    /\ exists first rest,
         out = first :: rest /\ offset_seconds first = Float.zero.
Proof.
  eexists. split; [vm_compute; reflexivity |].
  eapply (absolute_mode_offsets_start_at_zero
            DatetimeParse.fromisoformat DatetimeParse.strptime
            [timestamp_record (VStr "2024-03-09T10:00:00+02:00");
             timestamp_record (VStr "2024-03-09T07:59:59.500Z");
             timestamp_record (VStr "2024-03-09T03:00:01-05:00")]
            _
            [Datetime.mk 2024 3 9 10 0 0 0 (Some 7200000000);
             Datetime.mk 2024 3 9 7 59 59 500000 (Some 0);
             Datetime.mk 2024 3 9 3 0 1 0 (Some (-18000000000))]).
  - vm_compute. reflexivity.
  - reflexivity.
  - discriminate.
  - vm_compute. reflexivity.
Defined.

(** ** Whitespace around a timestamp *)

Section StripFacts.
Variable space : ascii -> bool.

Lemma lstrip_spaces (p x : list ascii) :
  Forall (fun c => space c = true) p ->
  Str.lstrip space (p ++ x)%list = Str.lstrip space x.
Proof. induction 1 as [| c p Hc _ IH]; cbn; [reflexivity | now rewrite Hc]. Qed.

Lemma lstrip_app_last (a : list ascii) (c : ascii) :
  space c = false ->
  Str.lstrip space (a ++ [c])%list = (Str.lstrip space a ++ [c])%list.
Proof.
  intros Hc. induction a as [| b a IH]; cbn; [now rewrite Hc |].
  destruct (space b); [exact IH | reflexivity].
Qed.

Lemma lstrip_head (l : list ascii) :
  Str.lstrip space l = []
  \/ exists c t, Str.lstrip space l = c :: t /\ space c = false.
Proof.
  induction l as [| b l IH]; cbn; [now left |].
  destruct (space b) eqn:Hb; [exact IH | right; eauto].
Qed.

Lemma lstrip_fixed (c : ascii) (t : list ascii) :
  space c = false -> Str.lstrip space (c :: t) = c :: t.
Proof. intros Hc. cbn. now rewrite Hc. Qed.

Lemma lstrip_idempotent (l : list ascii) :
  Str.lstrip space (Str.lstrip space l) = Str.lstrip space l.
Proof.
  destruct (lstrip_head l) as [-> | (c & t & -> & Hc)]; [reflexivity |].
  now apply lstrip_fixed.
Qed.

Lemma rstrip_spaces (x p : list ascii) :
  Forall (fun c => space c = true) p ->
  Str.rstrip space (x ++ p)%list = Str.rstrip space x.
Proof.
  intros Hp. unfold Str.rstrip. rewrite rev_app_distr.
  rewrite lstrip_spaces; [reflexivity |].
  apply List.Forall_rev, Hp.
Qed.

Lemma rstrip_idempotent (l : list ascii) :
  Str.rstrip space (Str.rstrip space l) = Str.rstrip space l.
Proof. unfold Str.rstrip. now rewrite rev_involutive, lstrip_idempotent. Qed.

Lemma rstrip_cons_fixed (c : ascii) (t : list ascii) :
  space c = false ->
  Str.rstrip space (c :: t) = c :: Str.rstrip space t.
Proof.
  intros Hc. unfold Str.rstrip. cbn [rev].
  rewrite (lstrip_app_last _ _ Hc), rev_app_distr. reflexivity.
Qed.

Lemma lstrip_rstrip_lstrip (l : list ascii) :
  Str.lstrip space (Str.rstrip space (Str.lstrip space l))
  = Str.rstrip space (Str.lstrip space l).
Proof.
  destruct (lstrip_head l) as [-> | (c & t & -> & Hc)]; [reflexivity |].
  rewrite (rstrip_cons_fixed _ _ Hc). now apply lstrip_fixed.
Qed.

Lemma strip_list_padding (p1 l p2 : list ascii) :
  Forall (fun c => space c = true) p1 ->
  Forall (fun c => space c = true) p2 ->
  Str.rstrip space (Str.lstrip space (p1 ++ l ++ p2)%list)
  = Str.rstrip space (Str.lstrip space l).
Proof.
  intros H1 H2. rewrite (lstrip_spaces _ _ H1).
  induction l as [| c l IH].
  - cbn [app]. rewrite <- (app_nil_r p2), (lstrip_spaces _ _ H2). reflexivity.
  - cbn [app Str.lstrip]. destruct (space c); [exact IH |].
    now rewrite !app_comm_cons, rstrip_spaces.
Qed.

End StripFacts.

Lemma strip_idempotent (s : string) : Str.strip (Str.strip s) = Str.strip s.
Proof.
  unfold Str.strip. rewrite list_ascii_of_string_of_list_ascii.
  now rewrite lstrip_rstrip_lstrip, rstrip_idempotent.
Qed.

Lemma strip_padding (p1 s p2 : string) :
  all_space p1 -> all_space p2 ->
  Str.strip (p1 +:+ s +:+ p2) = Str.strip s.
Proof.
  intros H1 H2. unfold Str.strip.
  rewrite !list_ascii_of_string_app. now rewrite strip_list_padding.
Qed.

(** X8.  Whitespace around a string timestamp never matters:
    [parse_timestamp] gives the same result, value or error, for a string
    and for the string with any whitespace put before and after it. *)
Theorem parse_timestamp_ignores_padding :
  forall (fromisoformat : string -> option Datetime.t)
         (strptime : string -> string -> option Datetime.t)
         (before s after : string),
    all_space before -> all_space after ->
    parse_timestamp fromisoformat strptime (VStr (before +:+ s +:+ after))
    = parse_timestamp fromisoformat strptime (VStr s).
Proof.
  intros fromisoformat strptime before s after H1 H2.
  rewrite !parse_timestamp_str. cbn zeta.
  now rewrite (strip_padding _ _ _ H1 H2).
Qed.

(** A clock string between a tab and two spaces, and an unsupported
    string followed by a newline. *)
Lemma parse_timestamp_ignores_padding_witness :
  parse_timestamp_py
    (VStr (String (ascii_of_nat 9) "" +:+ "12:30:00" +:+ "  "))
  = parse_timestamp_py (VStr "12:30:00")
  /\ parse_timestamp_py (VStr ("" +:+ "soon" +:+ Str.newline))
     = parse_timestamp_py (VStr "soon").
Proof.
  split.
  - apply (parse_timestamp_ignores_padding
             DatetimeParse.fromisoformat DatetimeParse.strptime
             (String (ascii_of_nat 9) "") "12:30:00" "  ");
      repeat constructor.
  - apply (parse_timestamp_ignores_padding
             DatetimeParse.fromisoformat DatetimeParse.strptime
             "" "soon" Str.newline);
      repeat constructor.
Defined.

(** ** Time codes of whole seconds and of offsets that are not positive *)

(** X9.  For an offset that is not greater than zero (a negative number,
    a zero of either sign, NaN or minus infinity) [srt_timestamp] returns
    [00:00:00,000] and does not raise. *)
Theorem srt_timestamp_not_positive :
  forall f : spec_float,
    Float.ltb Float.zero f = false ->
    srt_timestamp (NFloat f) = Ok "00:00:00,000".
Proof.
  intros f H. unfold srt_timestamp. cbn [Number.max0]. now rewrite H.
Qed.

(** A negative offset, NaN and minus infinity. *)
Lemma srt_timestamp_not_positive_witness :
  srt_timestamp (NFloat (Float.of_decimal (-25) (-1))) = Ok "00:00:00,000"
  /\ srt_timestamp (NFloat Float.nan) = Ok "00:00:00,000"
  /\ srt_timestamp (NFloat (S754_infinity true)) = Ok "00:00:00,000".
Proof.
  split; [| split]; apply srt_timestamp_not_positive; vm_compute; reflexivity.
Defined.



(** ** The subtitle text *)

Lemma strip_head (s : string) (c : ascii) (rest : string) :
  Str.strip s = String c rest -> Str.is_space c = false.
Proof.
  unfold Str.strip. intros H.
  apply (f_equal list_ascii_of_string) in H.
  rewrite list_ascii_of_string_of_list_ascii in H. cbn in H.
  pose proof (lstrip_rstrip_lstrip Str.is_space (list_ascii_of_string s)) as E.
  rewrite H in E. cbn in E. destruct (Str.is_space c) eqn:Hc; [| reflexivity].
  exfalso.
  assert (Hlen : length (Str.lstrip Str.is_space (list_ascii_of_string rest))
                 = S (length (list_ascii_of_string rest)))
    by now rewrite E.
  assert (Hle : forall l, (length (Str.lstrip Str.is_space l) <= length l)%nat).
  { induction l as [| b l IH]; cbn; [lia |].
    destruct (Str.is_space b); cbn; lia. }
  specialize (Hle (list_ascii_of_string rest)). lia.
Qed.

(** X11.  When [build_srt] returns, the text is a body followed by one
    newline, and the body has no whitespace at either end: stripping it
    changes nothing, and its first character, if any, is not whitespace.
    For no entries the text is the single newline. *)
Theorem build_srt_shape :
  (forall (float_repr : spec_float -> string)
          (entries : list TelemetryEntry) (speed_unit text : string),
      build_srt float_repr entries speed_unit = Ok text ->
      exists body,
        text = body +:+ Str.newline
        /\ Str.strip body = body
        /\ forall c rest, body = String c rest -> Str.is_space c = false)
  /\ (forall (float_repr : spec_float -> string) (speed_unit : string),
        build_srt float_repr [] speed_unit = Ok Str.newline).
Proof.
  split; [| reflexivity].
  intros float_repr entries speed_unit text H. unfold build_srt in H.
  apply bind_Ok in H as (blocks & _ & H). injection H as <-.
  eexists. split; [reflexivity |]. split; [apply strip_idempotent |].
  intros c rest Hb. eapply strip_head, Hb.
Qed.

(** The text of one caption. *)
Lemma build_srt_shape_witness :
  exists body,
    "1" +:+ Str.newline +:+ "00:00:02,500 --> 00:00:03,500" +:+ Str.newline
    +:+ "Time: 2.500s" +:+ Str.newline +:+ "Speed: 40.0 mph" +:+ Str.newline
    = body +:+ Str.newline
    /\ Str.strip body = body
    /\ forall c rest, body = String c rest -> Str.is_space c = false.
Proof.
  apply (proj1 build_srt_shape (fun _ => "")
           [mkTelemetryEntry (Float.of_decimal 25 (-1)) "2.500s"
              (Some (Float.of_Z_round 40)) None None]
           "mph").
  vm_compute. reflexivity.
Defined.

Lemma In_enumerate {A : Type} (x : A) (l : list A) (start : nat) :
  In x l -> exists idx, In (idx, x) (enumerate start l).
Proof.
  revert start. induction l as [| y l IH]; intros start; [intros [] |].
  intros [-> | H].
  - exists start. now left.
  - destruct (IH (S start) H) as [idx Hidx]. exists idx. now right.
Qed.

Lemma mapM_In_Raise {A B : Type} (f : A -> result B) (l : list A) (x : A)
    (e : exn) :
  In x l -> f x = Raise e -> exists e', mapM f l = Raise e'.
Proof.
  induction l as [| y l IH]; [intros [] |].
  intros [-> | H] Hx; cbn [mapM].
  - rewrite Hx. cbn. eauto.
  - destruct (f y); cbn; [| eauto].
    destruct (IH H Hx) as [e' ->]. cbn. eauto.
Qed.

(** X12.  An entry whose [offset_seconds] is plus infinity makes
    [build_srt] raise, wherever the entry stands: a batch with the numeric
    timestamp ["inf"] passes [normalize_entries] and fails when the
    subtitle text is rendered. *)
Theorem build_srt_infinite_offset :
  forall (float_repr : spec_float -> string)
         (entries : list TelemetryEntry) (speed_unit : string)
         (entry : TelemetryEntry),
    In entry entries ->
    offset_seconds entry = Float.infinity ->
    exists e, build_srt float_repr entries speed_unit = Raise e.
Proof.
  intros float_repr entries speed_unit entry Hin Hinf. unfold build_srt.
  destruct (In_enumerate entry entries 1 Hin) as [idx Hidx].
  destruct (mapM_In_Raise (caption_block float_repr entries speed_unit)
              (enumerate 1 entries) (idx, entry)
              (ValueError "cannot convert float NaN to integer") Hidx)
    as [e' He'].
  - unfold caption_block, caption_window. rewrite Hinf. reflexivity.
  - rewrite He'. cbn. eauto.
Qed.

(** The batch of the timestamps 5 and ["inf"]. *)
Lemma build_srt_infinite_offset_witness :
  exists out e,
    normalize_entries_py
      [timestamp_record (VStr "inf"); timestamp_record (VInt 5)] = Ok out
    /\ build_srt (fun _ => "") out "mph" = Raise e.
Proof.
  eexists. 
  assert (H : exists e,
             build_srt (fun _ => "")
               [mkTelemetryEntry (Float.of_Z_round 5) "5.000s" None None None;
                mkTelemetryEntry Float.infinity "infs" None None None] "mph"
             = Raise e).
  { apply (build_srt_infinite_offset (fun _ => "") _ "mph"
             (mkTelemetryEntry Float.infinity "infs" None None None));
      [right; left; reflexivity | reflexivity]. }
  destruct H as [e He]. exists e. split; [vm_compute; reflexivity | exact He].
Defined.

(** ** Locating the input files *)

Lemma string_compare_refl (s : string) : String.compare s s = Eq.
Proof.
  induction s as [| c s IH]; [reflexivity |]. cbn.
  unfold Ascii.compare. now rewrite N.compare_refl.
Qed.

Lemma string_leb_trans (a b c : string) :
  String.leb a b = true -> String.leb b c = true -> String.leb a c = true.
Proof.
  unfold String.leb. revert b c.
  induction a as [| x a IH]; intros [| y b] [| z c]; cbn; try congruence.
  unfold Ascii.compare.
  destruct (N.compare_spec (N_of_ascii x) (N_of_ascii y)) as [Exy | Lxy | Gxy];
    destruct (N.compare_spec (N_of_ascii y) (N_of_ascii z)) as [Eyz | Lyz | Gyz];
    destruct (N.compare_spec (N_of_ascii x) (N_of_ascii z)) as [Exz | Lxz | Gxz];
    try congruence; try lia; try (intros; reflexivity).
  apply IH.
Qed.

Lemma string_ltb_leb (a b : string) :
  String.ltb a b = true -> String.leb a b = true.
Proof. unfold String.ltb, String.leb. now destruct (String.compare a b). Qed.

Lemma string_ltb_false_leb (a b : string) :
  String.ltb a b = false -> String.leb b a = true.
Proof.
  unfold String.ltb, String.leb. rewrite (String.compare_antisym a b).
  now destruct (String.compare b a).
Qed.

Lemma sorted_names_head (l : list string) :
  match sorted_names l with
  | [] => l = []
  | first :: _ =>
      In first l /\ forall other, In other l -> String.leb first other = true
  end.
Proof.
  induction l as [| a l IH]; [reflexivity |]. cbn [sorted_names].
  destruct (sorted_names l) as [| h t]; cbn [insert_name].
  - subst l. split; [now left |]. intros other [<- | []].
    unfold String.leb. now rewrite string_compare_refl.
  - destruct IH as [Hin Hle]. destruct (String.ltb h a) eqn:E.
    + split; [now right |]. intros other [<- | Ho];
        [now apply string_ltb_leb | now apply Hle].
    + apply string_ltb_false_leb in E. split; [now left |].
      intros other [<- | Ho].
      * unfold String.leb. now rewrite string_compare_refl.
      * eapply string_leb_trans; [exact E | now apply Hle].
Qed.

Lemma first_sorted_match (folder : list string) (ext : string) :
  match sorted_names (glob_suffix folder ext) with
  | [] => none_with_suffix folder ext
  | first :: _ => least_with_suffix folder ext first
  end.
Proof.
  pose proof (sorted_names_head (glob_suffix folder ext)) as H.
  destruct (sorted_names (glob_suffix folder ext)) as [| first rest].
  - intros name Hin. destruct (Str.endswith name ext) eqn:E; [| reflexivity].
    assert (Hf : In name (glob_suffix folder ext))
      by (apply filter_In; now split).
    rewrite H in Hf. destruct Hf.
  - destruct H as [Hin Hle]. apply filter_In in Hin as [Hin Hs].
    repeat split; try assumption.
    intros other Ho Hso. apply Hle, filter_In. now split.
Qed.

(** X13.  [find_video_file] prefers [.mp4] to [.ts]: when the folder has
    entries ending in [.mp4] it returns the least of them in sorted order,
    even if a [.ts] entry sorts before it; otherwise it returns the
    least entry ending in [.ts]; and it fails exactly when the folder has
    no entry of either kind. *)
Theorem find_video_file_choice :
  forall folder : list string,
    match find_video_file folder with
    | Some name =>
        least_with_suffix folder ".mp4" name
        \/ (none_with_suffix folder ".mp4"
            /\ least_with_suffix folder ".ts" name)
    | None =>
        none_with_suffix folder ".mp4" /\ none_with_suffix folder ".ts"
    end.
Proof.
  intros folder. unfold find_video_file. cbn [find_by_extensions].
  pose proof (first_sorted_match folder ".mp4") as H4.
  pose proof (first_sorted_match folder ".ts") as Ht.
  destruct (sorted_names (glob_suffix folder ".mp4")); [| now left].
  destruct (sorted_names (glob_suffix folder ".ts")); [now split |].
  right. now split.
Qed.

(** X14.  [find_metadata_file] returns the least, in sorted order, of the
    entries ending in [.json], and fails exactly when there is none. *)
Theorem find_metadata_file_choice :
  forall folder : list string,
    match find_metadata_file folder with
    | Some name => least_with_suffix folder ".json" name
    | None => none_with_suffix folder ".json"
    end.
Proof.
  intros folder. unfold find_metadata_file.
  pose proof (first_sorted_match folder ".json") as H.
  now destruct (sorted_names (glob_suffix folder ".json")).
Qed.

(** ** Loading the metadata *)

(** X15.  [load_metadata] returns a top-level list as it is; for a
    top-level dict it returns the list under the first of the keys
    [data], [entries], [points] that holds a list, passing over a key that
    is absent or holds something else; and it raises the error of a
    malformed payload when no key holds a list or the payload is neither a
    list nor a dict.  An error of [json.loads] is passed on. *)
Theorem load_metadata_first_list :
  forall (json_loads : string -> result pyval) (text : string),
    (forall l, json_loads text = Ok (VList l) ->
               load_metadata json_loads text = Ok l)
    /\ (forall d l,
          json_loads text = Ok (VDict d) ->
          d !! "data" = Some (VList l) ->
          load_metadata json_loads text = Ok l)
    /\ (forall d l,
          json_loads text = Ok (VDict d) ->
          not_a_list (d !! "data") ->
          d !! "entries" = Some (VList l) ->
          load_metadata json_loads text = Ok l)
    /\ (forall d l,
          json_loads text = Ok (VDict d) ->
          not_a_list (d !! "data") ->
          not_a_list (d !! "entries") ->
          d !! "points" = Some (VList l) ->
          load_metadata json_loads text = Ok l)
    /\ (forall d,
          json_loads text = Ok (VDict d) ->
          not_a_list (d !! "data") ->
          not_a_list (d !! "entries") ->
          not_a_list (d !! "points") ->
          load_metadata json_loads text = Raise MalformedMetadataPayload)
    /\ (forall payload,
          json_loads text = Ok payload ->
          (forall l, payload <> VList l) ->
          (forall d, payload <> VDict d) ->
          load_metadata json_loads text = Raise MalformedMetadataPayload)
    /\ (forall e, json_loads text = Raise e ->
                  load_metadata json_loads text = Raise e).
Proof.
  intros json_loads text.
  assert (Hskip : forall (d : gmap string pyval) key rest,
             not_a_list (d !! key) ->
             first_list d (key :: rest) = first_list d rest).
  { intros d key rest H. cbn [first_list].
    destruct (d !! key) as [[| | | | | l |] |]; try reflexivity.
    now destruct (H l). }
  unfold load_metadata. repeat split.
  - intros l ->. reflexivity.
  - intros d l -> Hd. cbn. now rewrite Hd.
  - intros d l -> H1 H2. cbn [mbind result_bind].
    rewrite (Hskip _ _ _ H1). cbn. now rewrite H2.
  - intros d l -> H1 H2 H3. cbn [mbind result_bind].
    rewrite (Hskip _ _ _ H1), (Hskip _ _ _ H2). cbn. now rewrite H3.
  - intros d -> H1 H2 H3. cbn [mbind result_bind].
    now rewrite (Hskip _ _ _ H1), (Hskip _ _ _ H2), (Hskip _ _ _ H3).
  - intros payload -> Hl Hd. cbn.
    destruct payload as [| | | | | l | d]; try reflexivity.
    + now destruct (Hl l).
    + now destruct (Hd d).
  - intros e ->. reflexivity.
Qed.

(** A payload whose [data] is a number and whose [points] is a list. *)
Lemma load_metadata_first_list_witness :
  load_metadata
    (fun _ => Ok (VDict (<[ "data" := VInt 3 ]>
                           {[ "points" := VList [VInt 1; VInt 2] ]})))
    "{}"
  = Ok [VInt 1; VInt 2].
Proof.
  destruct (load_metadata_first_list
              (fun _ => Ok (VDict (<[ "data" := VInt 3 ]>
                                     {[ "points" := VList [VInt 1; VInt 2] ]})))
              "{}") as (_ & _ & _ & H & _).
  apply (H _ [VInt 1; VInt 2] eq_refl).
  - intros l. vm_compute. discriminate.
  - intros l. vm_compute. discriminate.
  - vm_compute. reflexivity.
Defined.

(** ** The result of normalize_entries is determined *)

(** X16.  When no [offset_seconds] is NaN, the list [normalize_entries]
    returns is the only arrangement of the built entries that is sorted
    by [offset_seconds] and keeps entries of equal offset in input order:
    any stable sort gives this result. *)
Theorem normalize_entries_result_unique :
  forall (fromisoformat : string -> option Datetime.t)
         (strptime : string -> string -> option Datetime.t)
         (batch : list (gmap string pyval))
         (parsed : list (timestamp * gmap string pyval))
         (offsets out candidate : list TelemetryEntry),
    parse_entries fromisoformat strptime batch = Ok parsed ->
    build_offsets parsed = Ok offsets ->
    normalize_entries fromisoformat strptime batch = Ok out ->
    Forall (fun e => Float.is_nan (offset_seconds e) = false) offsets ->
    Permutation offsets candidate ->
    Sorted (key_le offset_seconds) candidate ->
    stable offset_seconds offsets candidate ->
    candidate = out.
Proof.
  intros fromisoformat strptime batch parsed offsets out candidate
    Hp Ho H Hn Hperm Hs Hst.
  unfold normalize_entries in H. rewrite Hp in H. cbn in H.
  rewrite Ho in H. cbn in H. injection H as <-.
  now apply stable_sort_unique.
Qed.

(** Two entries given out of order, and the sorted arrangement written
    out. *)
Lemma normalize_entries_result_unique_witness :
  [mkTelemetryEntry (Float.of_Z_round 3) "3.000s" None None None;
   mkTelemetryEntry (Float.of_Z_round 7) "7.000s" None None None]
  = sort_by_key offset_seconds
      [mkTelemetryEntry (Float.of_Z_round 7) "7.000s" None None None;
       mkTelemetryEntry (Float.of_Z_round 3) "3.000s" None None None].
Proof.
  apply (normalize_entries_result_unique
           DatetimeParse.fromisoformat DatetimeParse.strptime
           [timestamp_record (VStr "7"); timestamp_record (VInt 3)]
           [(Numeric (Float.of_Z_round 7), timestamp_record (VStr "7"));
            (Numeric (Float.of_Z_round 3), timestamp_record (VInt 3))]
           [mkTelemetryEntry (Float.of_Z_round 7) "7.000s" None None None;
            mkTelemetryEntry (Float.of_Z_round 3) "3.000s" None None None]).
  - vm_compute. reflexivity.
  - vm_compute. reflexivity.
  - vm_compute. reflexivity.
  - repeat constructor.
  - apply perm_swap.
  - repeat constructor.
  - intros k. cbn [List.filter]. unfold same_key. cbn [offset_seconds].
    destruct (Float.eqb (Float.of_Z_round 3) k) eqn:E3;
      destruct (Float.eqb (Float.of_Z_round 7) k) eqn:E7; try reflexivity.
    exfalso. apply eqb_cases in E3, E7.
    destruct E3 as [<- | [E3 _]]; [| discriminate E3].
    destruct E7 as [E7 | [E7 _]]; discriminate E7.
Defined.

(** A folder in which a [.ts] entry sorts before the [.mp4] entries. *)
Lemma find_video_file_choice_witness :
  find_video_file ["a.ts"; "z.mp4"; "m.mp4"; "notes.json"] = Some "m.mp4"
  /\ least_with_suffix ["a.ts"; "z.mp4"; "m.mp4"; "notes.json"] ".mp4" "m.mp4".
Proof.
  split; [vm_compute; reflexivity |].
  pose proof (find_video_file_choice ["a.ts"; "z.mp4"; "m.mp4"; "notes.json"])
    as H.
  change (find_video_file ["a.ts"; "z.mp4"; "m.mp4"; "notes.json"])
    with (Some "m.mp4") in H.
  destruct H as [H | [Hn _]]; [exact H |].
  specialize (Hn "z.mp4" ltac:(right; left; reflexivity)).
  vm_compute in Hn. discriminate Hn.
Defined.

(** A folder with two [.json] entries, and one with none. *)
Lemma find_metadata_file_choice_witness :
  least_with_suffix ["run.json"; "clip.mp4"; "Run.json"] ".json" "Run.json"
  /\ none_with_suffix ["clip.mp4"; "json"] ".json".
Proof.
  split.
  - exact (find_metadata_file_choice ["run.json"; "clip.mp4"; "Run.json"]).
  - exact (find_metadata_file_choice ["clip.mp4"; "json"]).
Defined.
